(** * The tiered filing ingestion engine of edgar-sec-parser

    A shallow embedding of the size-driven tier router
    ([config/settings.py], [core/tiered_processor.py]), the dead-letter
    queue manager ([storage/dead_letter_queue.py]), the persistence layer
    ([storage/database.py]), the integrated parser
    ([parsers/integrated_parser.py], [core/parser_integration.py]) and the
    timeout manager ([core/timeout_manager.py]), with the properties the
    specification states about them.

    Conventions.
    - A Python [float] is a [pyfloat]: a rational, an infinity or NaN, with
      the IEEE comparisons (every comparison with NaN is false).
    - A Python [int] is a [Z]; a [str] is a [string]; [None] is [None].
    - A [datetime] is a number of seconds ([Z]); [timedelta(hours=h)] is
      [3600 * h].
    - The database is a record of tables, each a list of rows in insertion
      order, addressed through the columns the managers read and write.  A
      [Session] holds the database as committed and as seen by the open
      transaction. *)

From Stdlib Require Import ZArith QArith Qminmax List String Ascii Bool Lia Lqa.
From Stdlib Require Import Sorted Permutation.
Import ListNotations.

Local Open Scope Z_scope.
Local Open Scope string_scope.

(* ===================================================================== *)
(** * Python values *)
(* ===================================================================== *)

Module PyFloat.

(** The values of a Python [float]. *)
Inductive pyfloat : Type :=
| FFin (q : Q)
| FPosInf
| FNegInf
| FNaN.

Definition of_Z (z : Z) : pyfloat := FFin (inject_Z z).

(** [a <= b] *)
Definition fle (a b : pyfloat) : bool :=
  match a, b with
  | FNaN, _ => false
  | _, FNaN => false
  | FNegInf, _ => true
  | _, FPosInf => true
  | FFin x, FFin y => Qle_bool x y
  | _, _ => false
  end.

(** [a < b] *)
Definition flt (a b : pyfloat) : bool :=
  match a, b with
  | FNaN, _ => false
  | _, FNaN => false
  | _, _ => negb (fle b a)
  end.

(** [a > b] and [a >= b] *)
Definition fgt (a b : pyfloat) : bool := flt b a.
Definition fge (a b : pyfloat) : bool := fle b a.

End PyFloat.
Export PyFloat.

(** [x in [a, b, ...]] on strings. *)
Definition str_in (x : string) (l : list string) : bool :=
  existsb (String.eqb x) l.

(* ===================================================================== *)
(** * config/settings.py *)
(* ===================================================================== *)

Module Settings.

Record Settings : Type := {
  SMALL_FILE_THRESHOLD : pyfloat;
  MEDIUM_FILE_THRESHOLD : pyfloat;
  LARGE_FILE_THRESHOLD : pyfloat;
  TIMEOUT_STANDARD : Z;
  TIMEOUT_LIMITED : Z;
  TIMEOUT_MINIMAL : Z;
  DLQ_MAX_ATTEMPTS : Z;
  DLQ_RETRY_AFTER_HOURS : Z
}.

(** The field defaults, used when the environment sets none of them. *)
Definition settings : Settings := {|
  SMALL_FILE_THRESHOLD := of_Z 10;
  MEDIUM_FILE_THRESHOLD := of_Z 50;
  LARGE_FILE_THRESHOLD := of_Z 100;
  TIMEOUT_STANDARD := 300;
  TIMEOUT_LIMITED := 120;
  TIMEOUT_MINIMAL := 60;
  DLQ_MAX_ATTEMPTS := 5;
  DLQ_RETRY_AFTER_HOURS := 24
|}.

(** The threshold check of [__post_init__]:
    [0 < SMALL < MEDIUM < LARGE], else [ValueError]. *)
Definition thresholds_ascending (s : Settings) : bool :=
  flt (of_Z 0) (SMALL_FILE_THRESHOLD s)
  && flt (SMALL_FILE_THRESHOLD s) (MEDIUM_FILE_THRESHOLD s)
  && flt (MEDIUM_FILE_THRESHOLD s) (LARGE_FILE_THRESHOLD s).

Definition get_timeout_for_tier (s : Settings) (tier : string) : Z :=
  if tier =? "standard" then TIMEOUT_STANDARD s
  else if tier =? "limited" then TIMEOUT_LIMITED s
  else if tier =? "minimal" then TIMEOUT_MINIMAL s
  else if tier =? "dead_letter" then 0
  else TIMEOUT_STANDARD s.

Definition determine_processing_tier (s : Settings) (file_size_mb : pyfloat)
  : string :=
  if fgt file_size_mb (LARGE_FILE_THRESHOLD s) then "dead_letter"
  else if fgt file_size_mb (MEDIUM_FILE_THRESHOLD s) then "minimal"
  else if fgt file_size_mb (SMALL_FILE_THRESHOLD s) then "limited"
  else "standard".

End Settings.

(* ===================================================================== *)
(** * storage/dead_letter_queue.py: the scoring functions *)
(* ===================================================================== *)

Module DLQScore.

Definition _calculate_retry_eligibility
  (attempt_count : Z) (file_size_mb : pyfloat) (failure_type : string)
  : bool :=
  if attempt_count >=? 5 then false
  else if fgt file_size_mb (of_Z 100) then false
  else if fgt file_size_mb (of_Z 50) && (attempt_count >=? 2) then false
  else if (failure_type =? "memory") && fgt file_size_mb (of_Z 25) then false
  else if (failure_type =? "parsing") && (attempt_count >=? 3) then false
  else true.

(** [min(24 * (2 ** (attempt_count - 1)), 192)].  Stored attempt counts
    start at 1, where [**] is integer exponentiation. *)
Definition _calculate_backoff_hours (attempt_count : Z) : Z :=
  Z.min (24 * 2 ^ (attempt_count - 1)) 192.

Definition _suggest_tier
  (attempt_count : Z) (file_size_mb : pyfloat) (failure_type : string)
  : string :=
  if (failure_type =? "memory") || fgt file_size_mb (of_Z 30) then "minimal"
  else if (attempt_count >=? 2) || fgt file_size_mb (of_Z 15) then "limited"
  else "standard".

Definition _calculate_priority (file_size_mb : pyfloat) (failure_type : string)
  : Z :=
  let priority := 1 in
  let priority :=
    if flt file_size_mb (of_Z 5) then priority + 2
    else if flt file_size_mb (of_Z 15) then priority + 1
    else priority in
  let priority :=
    if str_in failure_type ["network"; "temporary"] then priority + 1
    else if str_in failure_type ["memory"; "timeout"] then priority - 1
    else priority in
  Z.max 1 (Z.min 5 priority).

End DLQScore.

(* ===================================================================== *)
(** * Exceptions and the clock *)
(* ===================================================================== *)

Module Py.

(** The exception classes the pipeline raises or catches, all derived
    from [Exception].  [TimeoutError] is the class declared in
    [core/timeout_manager.py]; [ParseError] the one of [parsers/base.py];
    [SQLAlchemyError] stands for the database layer's errors. *)
Inductive exn_class : Type :=
| TimeoutError
| MemoryError
| AttributeError
| ValueError
| TypeError
| RuntimeError
| ParseError
| SQLAlchemyError
| OtherError.

(** An exception with [str(e)]. *)
Record exn : Type := Raise { exn_cls : exn_class; exn_msg : string }.

(** A computation that returns or raises. *)
Definition result (A : Type) : Type := (exn + A)%type.

Definition ret {A : Type} (a : A) : result A := inr a.
Definition raise {A : Type} (c : exn_class) (msg : string) : result A :=
  inl (Raise c msg).
Definition bind {A B : Type} (m : result A) (k : A -> result B) : result B :=
  match m with
  | inl e => inl e
  | inr a => k a
  end.

(** [try: body  except Exception as e: handler(e)] *)
Definition try_except {A : Type} (body : result A) (handler : exn -> A) : A :=
  match body with
  | inl e => handler e
  | inr a => a
  end.

Definition is_class (c : exn_class) (e : exn) : bool :=
  match c, exn_cls e with
  | TimeoutError, TimeoutError => true
  | MemoryError, MemoryError => true
  | AttributeError, AttributeError => true
  | ValueError, ValueError => true
  | TypeError, TypeError => true
  | RuntimeError, RuntimeError => true
  | ParseError, ParseError => true
  | SQLAlchemyError, SQLAlchemyError => true
  | OtherError, OtherError => true
  | _, _ => false
  end.

(** The places where a manager reads [datetime.utcnow()]; a [clock] gives
    the reading at each of them during one call. *)
Inductive reading : Type :=
| AtCreated
| AtLastAttempt
| AtNextRetry
| AtUpdated
| AtFilingUpdated.

Definition clock : Type := reading -> Z.

(** [timedelta(hours=h)] in seconds. *)
Definition hours (h : Z) : Z := 3600 * h.

(** Truth value of an optional string: [None] and [''] are false. *)
Definition truthy_str (s : option string) : bool :=
  match s with
  | Some s => negb (s =? "")
  | None => false
  end.

End Py.
Export Py.

Declare Scope py_scope.
Delimit Scope py_scope with py.
Notation "x <- m ;; k" := (bind m (fun x => k))
  (at level 61, m at next level, right associativity) : py_scope.

(* ===================================================================== *)
(** * storage/models.py: the rows the managers read and write *)
(* ===================================================================== *)

(** The rows carry the columns under the names the managers use: a filing
    is addressed by [id], and a queue row has [retry_after_hours] and
    [original_error_details].  The [system_metrics] of a queue row, a
    snapshot of the machine's memory and processor load, is left out. *)

Module Filing.
Record t : Type := {
  id : Z;
  accession_number : string;
  cik : option string;
  company_name : option string;
  file_size_mb : pyfloat;
  filing_html_url : option string;
  processing_status : string;
  processing_tier : option string;
  created_at : Z;
  updated_at : Z
}.

Definition set_status (tier : option string) (status : string) (now : Z)
  (f : t) : t :=
  {| id := id f; accession_number := accession_number f; cik := cik f;
     company_name := company_name f; file_size_mb := file_size_mb f;
     filing_html_url := filing_html_url f;
     processing_status := status; processing_tier := tier;
     created_at := created_at f; updated_at := now |}.
End Filing.

Module DLQModel.
Record t : Type := {
  id : Z;
  filing_id : Z;
  failure_reason : string;
  failure_type : string;
  original_tier : option string;
  file_size_mb : pyfloat;
  attempt_count : Z;
  max_attempts : Z;
  retry_eligible : bool;
  last_attempt : Z;
  next_retry : option Z;
  retry_after_hours : Z;
  suggested_tier : option string;
  priority : Z;
  original_error_details : option string;
  created_at : Z;
  updated_at : Z
}.
End DLQModel.

Module FundMetadata.
Record t : Type := {
  filing_id : Z;
  fund_name : option string;
  total_net_assets : option string;
  raw_data : list (string * option string)
}.
End FundMetadata.

Module NcsrSection.
(** The columns a section dictionary supplies. *)
Record data : Type := {
  section_name : string;
  section_type : string;
  text_clean : string;
  word_count : Z
}.
Record t : Type := { filing_id : Z; columns : data }.
End NcsrSection.

Module NcsrTableRow.
Record data : Type := {
  row_index : Z;
  col_name : string;
  col_value : string;
  col_type : string
}.
Record t : Type := { table_id : Z; columns : data }.
End NcsrTableRow.

Module NcsrTable.
Record data : Type := {
  table_type : string;
  caption : option string;
  table_html : string;
  row_count : Z;
  column_count : Z
}.
Record t : Type := { id : Z; filing_id : Z; columns : data }.
End NcsrTable.

Module XbrlFact.
Record t : Type := {
  filing_id : Z;
  concept : string;
  value : option string;
  unit_ref : option string;
  context_ref : option string
}.
End XbrlFact.

Module ProcessingResult.
Record t : Type := {
  filing_id : Z;
  processing_tier : string;
  success : bool;
  tables_extracted : Z;
  sections_found : Z
}.
End ProcessingResult.

(* ===================================================================== *)
(** * The database and its sessions *)
(* ===================================================================== *)

Module DB.

Record t : Type := {
  filings : list Filing.t;
  dead_letter_queue : list DLQModel.t;
  fund_metadata : list FundMetadata.t;
  ncsr_sections : list NcsrSection.t;
  ncsr_tables : list NcsrTable.t;
  ncsr_table_rows : list NcsrTableRow.t;
  xbrl_facts : list XbrlFact.t;
  processing_results : list ProcessingResult.t
}.

Definition empty : t := {|
  filings := []; dead_letter_queue := []; fund_metadata := [];
  ncsr_sections := []; ncsr_tables := []; ncsr_table_rows := [];
  xbrl_facts := []; processing_results := []
|}.

Definition set_filings (v : list Filing.t) (d : t) : t :=
  {| filings := v; dead_letter_queue := dead_letter_queue d;
     fund_metadata := fund_metadata d; ncsr_sections := ncsr_sections d;
     ncsr_tables := ncsr_tables d; ncsr_table_rows := ncsr_table_rows d;
     xbrl_facts := xbrl_facts d; processing_results := processing_results d |}.

Definition set_dead_letter_queue (v : list DLQModel.t) (d : t) : t :=
  {| filings := filings d; dead_letter_queue := v;
     fund_metadata := fund_metadata d; ncsr_sections := ncsr_sections d;
     ncsr_tables := ncsr_tables d; ncsr_table_rows := ncsr_table_rows d;
     xbrl_facts := xbrl_facts d; processing_results := processing_results d |}.

Definition add_fund_metadata (r : FundMetadata.t) (d : t) : t :=
  {| filings := filings d; dead_letter_queue := dead_letter_queue d;
     fund_metadata := fund_metadata d ++ [r]; ncsr_sections := ncsr_sections d;
     ncsr_tables := ncsr_tables d; ncsr_table_rows := ncsr_table_rows d;
     xbrl_facts := xbrl_facts d; processing_results := processing_results d |}.

Definition add_section (r : NcsrSection.t) (d : t) : t :=
  {| filings := filings d; dead_letter_queue := dead_letter_queue d;
     fund_metadata := fund_metadata d; ncsr_sections := ncsr_sections d ++ [r];
     ncsr_tables := ncsr_tables d; ncsr_table_rows := ncsr_table_rows d;
     xbrl_facts := xbrl_facts d; processing_results := processing_results d |}.

Definition add_table (r : NcsrTable.t) (d : t) : t :=
  {| filings := filings d; dead_letter_queue := dead_letter_queue d;
     fund_metadata := fund_metadata d; ncsr_sections := ncsr_sections d;
     ncsr_tables := ncsr_tables d ++ [r]; ncsr_table_rows := ncsr_table_rows d;
     xbrl_facts := xbrl_facts d; processing_results := processing_results d |}.

Definition add_table_row (r : NcsrTableRow.t) (d : t) : t :=
  {| filings := filings d; dead_letter_queue := dead_letter_queue d;
     fund_metadata := fund_metadata d; ncsr_sections := ncsr_sections d;
     ncsr_tables := ncsr_tables d; ncsr_table_rows := ncsr_table_rows d ++ [r];
     xbrl_facts := xbrl_facts d; processing_results := processing_results d |}.

Definition add_processing_result (r : ProcessingResult.t) (d : t) : t :=
  {| filings := filings d; dead_letter_queue := dead_letter_queue d;
     fund_metadata := fund_metadata d; ncsr_sections := ncsr_sections d;
     ncsr_tables := ncsr_tables d; ncsr_table_rows := ncsr_table_rows d;
     xbrl_facts := xbrl_facts d; processing_results := processing_results d ++ [r] |}.

(** The next value of an autoincrement primary key. *)
Definition next_id (ids : list Z) : Z := 1 + fold_right Z.max 0 ids.

(** [query.filter(p).first()] *)
Definition first {A : Type} (p : A -> bool) (rows : list A) : option A :=
  find p rows.

(** An attribute write on the object [first p] returned: the row changes
    in place. *)
Fixpoint update_first {A : Type} (p : A -> bool) (f : A -> A) (rows : list A)
  : list A :=
  match rows with
  | [] => []
  | r :: rest => if p r then f r :: rest else r :: update_first p f rest
  end.

(** [session.delete] of the object [first p] returned. *)
Fixpoint delete_first {A : Type} (p : A -> bool) (rows : list A) : list A :=
  match rows with
  | [] => []
  | r :: rest => if p r then rest else r :: delete_first p rest
  end.

End DB.

Module Session.

(** [committed] is what the database holds; [working] is what the open
    transaction sees: the committed rows with the session's pending
    changes. *)
Record t : Type := { committed : DB.t; working : DB.t }.

(** [SessionLocal()] *)
Definition get_session (db : DB.t) : t := {| committed := db; working := db |}.

(** A pending change. *)
Definition modify (f : DB.t -> DB.t) (s : t) : t :=
  {| committed := committed s; working := f (working s) |}.

(** [session.commit()]; a failure of the database ([db_fault]) raises. *)
Definition commit (db_fault : bool) (s : t) : result t :=
  if db_fault then raise SQLAlchemyError "commit failed"
  else ret {| committed := working s; working := working s |}.

(** [session.rollback()] *)
Definition rollback (s : t) : t :=
  {| committed := committed s; working := committed s |}.

(** [session.close()]: pending changes that were not committed are
    dropped; the database is left as committed. *)
Definition close (s : t) : DB.t := committed s.

(** Leaving [with get_session() as session:].  [get_session] returns
    [sessionmaker(bind=engine)()], a plain SQLAlchemy session, whose
    context manager closes it on exit and does not commit. *)
Definition __exit__ (s : t) : DB.t := close s.

End Session.

(* ===================================================================== *)
(** * storage/dead_letter_queue.py: DeadLetterQueueManager *)
(* ===================================================================== *)

Module DeadLetterQueueManager.
Import DLQScore.

Definition by_filing_id (filing_id : Z) (e : DLQModel.t) : bool :=
  (DLQModel.filing_id e =? filing_id)%Z.

Definition filing_by_id (filing_id : Z) (f : Filing.t) : bool :=
  (Filing.id f =? filing_id)%Z.

(** The branch of [add_filing] for a filing already in the queue
    (lines 51-79).  [priority], [original_tier], [max_attempts] and
    [created_at] are not assigned there. *)
Definition update_existing (utcnow : clock) (error : string)
  (file_size_mb : pyfloat) (failure_type : string)
  (error_details : option string) (existing : DLQModel.t) : DLQModel.t :=
  let attempt_count := DLQModel.attempt_count existing + 1 in
  let retry_eligible :=
    _calculate_retry_eligibility attempt_count file_size_mb failure_type in
  let backoff_hours := _calculate_backoff_hours attempt_count in
  {| DLQModel.id := DLQModel.id existing;
     DLQModel.filing_id := DLQModel.filing_id existing;
     DLQModel.failure_reason := error;
     DLQModel.failure_type := failure_type;
     DLQModel.original_tier := DLQModel.original_tier existing;
     DLQModel.file_size_mb := file_size_mb;
     DLQModel.attempt_count := attempt_count;
     DLQModel.max_attempts := DLQModel.max_attempts existing;
     DLQModel.retry_eligible := retry_eligible;
     DLQModel.last_attempt := utcnow AtLastAttempt;
     DLQModel.next_retry :=
       if retry_eligible
       then Some (utcnow AtNextRetry + hours backoff_hours)
       else None;
     DLQModel.retry_after_hours :=
       if retry_eligible then backoff_hours
       else DLQModel.retry_after_hours existing;
     DLQModel.suggested_tier :=
       if retry_eligible
       then Some (_suggest_tier attempt_count file_size_mb failure_type)
       else None;
     DLQModel.priority := DLQModel.priority existing;
     DLQModel.original_error_details :=
       if truthy_str error_details then error_details
       else DLQModel.original_error_details existing;
     DLQModel.created_at := DLQModel.created_at existing;
     DLQModel.updated_at := utcnow AtUpdated |}.

(** The branch of [add_filing] for a filing not yet in the queue
    (lines 84-102); [new_id] is the primary key the database assigns, and
    [max_attempts], [last_attempt], [created_at] and [updated_at] take
    their column defaults. *)
Definition new_entry (utcnow : clock) (new_id filing_id : Z) (error : string)
  (file_size_mb : pyfloat) (failure_type : string)
  (original_tier error_details : option string) : DLQModel.t :=
  let retry_eligible :=
    _calculate_retry_eligibility 1 file_size_mb failure_type in
  {| DLQModel.id := new_id;
     DLQModel.filing_id := filing_id;
     DLQModel.failure_reason := error;
     DLQModel.failure_type := failure_type;
     DLQModel.original_tier := original_tier;
     DLQModel.file_size_mb := file_size_mb;
     DLQModel.attempt_count := 1;
     DLQModel.max_attempts := 5;
     DLQModel.retry_eligible := retry_eligible;
     DLQModel.last_attempt := utcnow AtLastAttempt;
     DLQModel.next_retry :=
       if retry_eligible then Some (utcnow AtNextRetry + hours 24) else None;
     DLQModel.retry_after_hours := if retry_eligible then 24 else 0;
     DLQModel.suggested_tier :=
       if retry_eligible
       then Some (_suggest_tier 1 file_size_mb failure_type)
       else None;
     DLQModel.priority := _calculate_priority file_size_mb failure_type;
     DLQModel.original_error_details := error_details;
     DLQModel.created_at := utcnow AtCreated;
     DLQModel.updated_at := utcnow AtCreated |}.

(** The [try] block of [add_filing], up to and including
    [session.commit()]. *)
Definition add_filing_try (utcnow : clock) (db_fault : bool)
  (session : Session.t) (filing_id : Z) (error : string)
  (file_size_mb : pyfloat) (failure_type : string)
  (original_tier error_details : option string) : result Session.t :=
  let queue := DB.dead_letter_queue (Session.working session) in
  let session :=
    match DB.first (by_filing_id filing_id) queue with
    | Some _ =>
        Session.modify
          (DB.set_dead_letter_queue
             (DB.update_first (by_filing_id filing_id)
                (update_existing utcnow error file_size_mb failure_type
                   error_details) queue))
          session
    | None =>
        Session.modify
          (DB.set_dead_letter_queue
             (queue ++
              [new_entry utcnow (DB.next_id (map DLQModel.id queue))
                 filing_id error file_size_mb failure_type original_tier
                 error_details]))
          session
    end in
  let filings := DB.filings (Session.working session) in
  let session :=
    match DB.first (filing_by_id filing_id) filings with
    | Some _ =>
        Session.modify
          (DB.set_filings
             (DB.update_first (filing_by_id filing_id)
                (fun f => Filing.set_status (Filing.processing_tier f)
                            "dead_letter" (utcnow AtFilingUpdated) f)
                filings))
          session
    | None => session
    end in
  Session.commit db_fault session.

(** [add_filing]: the database after the call and the value returned. *)
Definition add_filing (utcnow : clock) (db_fault : bool) (db : DB.t)
  (filing_id : Z) (error : string) (file_size_mb : pyfloat)
  (failure_type : string) (original_tier error_details : option string)
  : DB.t * bool :=
  let session := Session.get_session db in
  match add_filing_try utcnow db_fault session filing_id error file_size_mb
          failure_type original_tier error_details with
  | inr session => (Session.close session, true)
  | inl _ => (Session.close (Session.rollback session), false)
  end.

(** The update of [mark_as_processed] after a failed retry
    (lines 250-262). *)
Definition update_failed_retry (utcnow : clock) (dlq_entry : DLQModel.t)
  : DLQModel.t :=
  let attempt_count := DLQModel.attempt_count dlq_entry + 1 in
  let retry_eligible :=
    _calculate_retry_eligibility attempt_count
      (DLQModel.file_size_mb dlq_entry) (DLQModel.failure_type dlq_entry) in
  {| DLQModel.id := DLQModel.id dlq_entry;
     DLQModel.filing_id := DLQModel.filing_id dlq_entry;
     DLQModel.failure_reason := DLQModel.failure_reason dlq_entry;
     DLQModel.failure_type := DLQModel.failure_type dlq_entry;
     DLQModel.original_tier := DLQModel.original_tier dlq_entry;
     DLQModel.file_size_mb := DLQModel.file_size_mb dlq_entry;
     DLQModel.attempt_count := attempt_count;
     DLQModel.max_attempts := DLQModel.max_attempts dlq_entry;
     DLQModel.retry_eligible := retry_eligible;
     DLQModel.last_attempt := utcnow AtLastAttempt;
     DLQModel.next_retry :=
       if retry_eligible
       then Some (utcnow AtNextRetry
                  + hours (_calculate_backoff_hours attempt_count))
       else None;
     DLQModel.retry_after_hours := DLQModel.retry_after_hours dlq_entry;
     DLQModel.suggested_tier := DLQModel.suggested_tier dlq_entry;
     DLQModel.priority := DLQModel.priority dlq_entry;
     DLQModel.original_error_details :=
       DLQModel.original_error_details dlq_entry;
     DLQModel.created_at := DLQModel.created_at dlq_entry;
     DLQModel.updated_at := utcnow AtUpdated |}.

(** The body of [with self.db.get_session() as session:] in
    [mark_as_processed]: the session as the body leaves it. *)
Definition mark_as_processed_body (utcnow : clock) (session : Session.t)
  (filing_id : Z) (success : bool) : Session.t :=
  let queue := DB.dead_letter_queue (Session.working session) in
  match DB.first (by_filing_id filing_id) queue with
  | Some _ =>
      if success
      then Session.modify
             (DB.set_dead_letter_queue
                (DB.delete_first (by_filing_id filing_id) queue))
             session
      else Session.modify
             (DB.set_dead_letter_queue
                (DB.update_first (by_filing_id filing_id)
                   (update_failed_retry utcnow) queue))
             session
  | None => session
  end.

(** [mark_as_processed]: the body runs inside the [with] block, which
    closes the session on the way out; the function holds no
    [session.commit()]. *)
Definition mark_as_processed (utcnow : clock) (db : DB.t) (filing_id : Z)
  (success : bool) : DB.t * bool :=
  let session := Session.get_session db in
  let session := mark_as_processed_body utcnow session filing_id success in
  (Session.__exit__ session, true).

End DeadLetterQueueManager.

(* ===================================================================== *)
(** * parsers/base.py, sgml_parser.py, xbrl_parser.py, integrated_parser.py *)
(* ===================================================================== *)

Module Text.

Definition upper_ascii (c : ascii) : ascii :=
  let n := nat_of_ascii c in
  if (97 <=? n)%nat && (n <=? 122)%nat then ascii_of_nat (n - 32) else c.

Definition lower_ascii (c : ascii) : ascii :=
  let n := nat_of_ascii c in
  if (65 <=? n)%nat && (n <=? 90)%nat then ascii_of_nat (n + 32) else c.

(** [str.upper()] and [str.lower()] on the ASCII letters. *)
Fixpoint upper (s : string) : string :=
  match s with
  | EmptyString => EmptyString
  | String c rest => String (upper_ascii c) (upper rest)
  end.

Fixpoint lower (s : string) : string :=
  match s with
  | EmptyString => EmptyString
  | String c rest => String (lower_ascii c) (lower rest)
  end.

(** [needle in hay] *)
Fixpoint contains (needle hay : string) : bool :=
  match hay with
  | EmptyString => needle =? ""
  | String _ rest => String.prefix needle hay || contains needle rest
  end.

End Text.

Module Parsers.

Definition dict : Type := list (string * option string).

Record FilingMetadata : Type := {
  accession_number : option string;
  cik : option string;
  company_name : option string;
  form_type : option string;
  filing_date : option string;
  period_of_report : option string;
  acceptance_datetime : option string;
  sic : option string;
  state_of_incorporation : option string;
  fiscal_year_end : option string;
  business_address : option string;
  business_phone : option string;
  document_count : option string;
  additional_metadata : dict
}.

Record XBRLFact : Type := {
  name : string;
  value : string;
  context_ref : option string;
  unit : option string;
  decimals : option string;
  scale : option string
}.

(** [ParsingResult]; [R] is the shape of the parser's [raw_data]
    dictionary.  [parsing_time], a wall-clock measurement, is not kept. *)
Record ParsingResult (R : Type) : Type := {
  success : bool;
  parser_name : string;
  metadata : option FilingMetadata;
  xbrl_facts : list XBRLFact;
  raw_data : option R;
  error_message : option string
}.
Arguments success {R} _.
Arguments parser_name {R} _.
Arguments metadata {R} _.
Arguments xbrl_facts {R} _.
Arguments raw_data {R} _.
Arguments error_message {R} _.

(** The dataclass constructor with [__post_init__]: a failed result
    without a message gets ["Unknown parsing error"]. *)
Definition mkParsingResult {R : Type} (success : bool) (parser_name : string)
  (metadata : option FilingMetadata) (xbrl_facts : list XBRLFact)
  (raw_data : option R) (error_message : option string) : ParsingResult R :=
  {| success := success; parser_name := parser_name; metadata := metadata;
     xbrl_facts := xbrl_facts; raw_data := raw_data;
     error_message :=
       if negb success && negb (truthy_str error_message)
       then Some "Unknown parsing error"
       else error_message |}.

(** [@measure_parsing_time]: a result gets its [parsing_time]; an
    exception is raised again. *)
Definition measure_parsing_time {R : Type} (r : result (ParsingResult R))
  : result (ParsingResult R) :=
  match r with
  | inr res => inr res
  | inl e => inl e
  end.

(** [raw_data] of the SGML parser, of the XBRL parser and of the
    integrated parser. *)
Record sgml_raw : Type := {
  sgml_metadata : dict;
  xbrl_content : list string
}.

Record xbrl_raw : Type := {
  facts_data : list dict;
  fact_count : nat
}.

Record strategy : Type := {
  use_sgml : bool;
  use_xbrl : bool;
  primary_parser : option string
}.

Record filing_raw : Type := {
  raw_strategy : strategy;
  parser_results_sgml : option sgml_raw;
  parser_results_xbrl : option xbrl_raw;
  individual_results : list (string * bool * nat)
}.

(** What [secsgml.parse_sgml_content_into_memory] returns: a pair, or
    anything else. *)
Inductive sgml_output : Type :=
| SgmlPair (metadata_dict : dict) (xbrl_content_list : list string)
| SgmlUnexpected (type_name : string).

(** What [secxbrl.parse_inline_xbrl] returns: a list, or anything else. *)
Inductive xbrl_output : Type :=
| XbrlList (facts : list dict)
| XbrlUnexpected (type_name : string).

(** The external libraries, which return or raise, and the extraction
    helpers of the two sub-parsers, which catch what they raise. *)
Record Libs : Type := {
  secsgml_parse_sgml_content_into_memory : string -> result sgml_output;
  secxbrl_parse_inline_xbrl : string -> result xbrl_output;
  sgml_extract_metadata : dict -> option FilingMetadata;
  sgml_extract_xbrl_facts : list string -> list XBRLFact;
  xbrl_extract_xbrl_facts : list dict -> list XBRLFact;
  xbrl_extract_basic_metadata : string -> option FilingMetadata
}.

Local Open Scope py_scope.

Module SGMLParser.

Definition sgml_indicators : list string :=
  ["<SEC-DOCUMENT>"; "<SEC-HEADER>"; "ACCESSION-NUMBER:";
   "CONFORMED-SUBMISSION-TYPE:"; "<DOCUMENT>"].

Definition is_compatible (content : string) : bool :=
  let content_upper := Text.upper content in
  existsb (fun indicator => Text.contains indicator content_upper)
    sgml_indicators.

Definition parse_try (libs : Libs) (content : string)
  : result (ParsingResult sgml_raw) :=
  if negb (is_compatible content)
  then raise ParseError "Content does not appear to be SEC SGML format"
  else
    r <- secsgml_parse_sgml_content_into_memory libs content ;;
    match r with
    | SgmlUnexpected ty =>
        raise ParseError ("Unexpected secsgml result format: " ++ ty)
    | SgmlPair metadata_dict xbrl_content_list =>
        let metadata := sgml_extract_metadata libs metadata_dict in
        let xbrl_facts := sgml_extract_xbrl_facts libs xbrl_content_list in
        ret (mkParsingResult true "SGMLParser" metadata xbrl_facts
               (Some {| sgml_metadata := metadata_dict;
                        xbrl_content := xbrl_content_list |})
               None)
    end.

Definition parse (libs : Libs) (content : string)
  : result (ParsingResult sgml_raw) :=
  measure_parsing_time
    (ret (try_except (parse_try libs content)
            (fun e =>
               mkParsingResult false "SGMLParser" None [] None
                 (Some ("SGML parsing failed: " ++ exn_msg e))))).

End SGMLParser.

Module XBRLParser.

Definition xbrl_indicators : list string :=
  ["xmlns:ix="; "inlineXBRL"; "ix:"; "xbrl.org"; "<ix:nonFraction";
   "<ix:nonNumeric"; "<ix:fraction"].

Definition is_compatible (content : string) : bool :=
  let content_lower := Text.lower content in
  existsb
    (fun indicator => Text.contains (Text.lower indicator) content_lower)
    xbrl_indicators.

Definition parse_try (libs : Libs) (content : string)
  : result (ParsingResult xbrl_raw) :=
  if negb (is_compatible content)
  then raise ParseError "Content does not appear to be InlineXBRL format"
  else
    r <- secxbrl_parse_inline_xbrl libs content ;;
    match r with
    | XbrlUnexpected ty =>
        raise ParseError ("Unexpected secxbrl result format: " ++ ty)
    | XbrlList facts =>
        let xbrl_facts := xbrl_extract_xbrl_facts libs facts in
        let metadata := xbrl_extract_basic_metadata libs content in
        ret (mkParsingResult true "XBRLParser" metadata xbrl_facts
               (Some {| facts_data := facts;
                        fact_count := List.length xbrl_facts |})
               None)
    end.

Definition parse (libs : Libs) (content : string)
  : result (ParsingResult xbrl_raw) :=
  measure_parsing_time
    (ret (try_except (parse_try libs content)
            (fun e =>
               mkParsingResult false "XBRLParser" None [] None
                 (Some ("XBRL parsing failed: " ++ exn_msg e))))).

End XBRLParser.

Module FilingParser.

(** [enable_sgml] and [enable_xbrl] as [__init__] leaves them; the
    sub-parser of a disabled format is [None]. *)
Record t : Type := { enable_sgml : bool; enable_xbrl : bool }.

Definition __init__ (want_sgml want_xbrl sgml_available xbrl_available
  : bool) : result t :=
  let self := {| enable_sgml := want_sgml && sgml_available;
                 enable_xbrl := want_xbrl && xbrl_available |} in
  if negb (enable_sgml self || enable_xbrl self)
  then raise RuntimeError "No parsers available"
  else ret self.

Definition is_compatible (self : t) (content : string) : bool :=
  if enable_sgml self && SGMLParser.is_compatible content then true
  else if enable_xbrl self && XBRLParser.is_compatible content then true
  else false.

Definition determine_parser_strategy (self : t) (content : string)
  : strategy :=
  let sgml := enable_sgml self && SGMLParser.is_compatible content in
  let xbrl := enable_xbrl self && XBRLParser.is_compatible content in
  {| use_sgml := sgml;
     use_xbrl := xbrl;
     primary_parser :=
       if sgml then Some "sgml" else if xbrl then Some "xbrl" else None |}.

Definition newline : string := String (ascii_of_nat 10) EmptyString.

Definition _extract_xbrl_content_try (libs : Libs) (self : t)
  (content : string) (st : strategy) : result (option string) :=
  from_sgml <-
    (if use_sgml st && enable_sgml self
     then
       sgml_result <- SGMLParser.parse libs content ;;
       match success sgml_result, raw_data sgml_result with
       | true, Some rd =>
           match xbrl_content rd with
           | [] => ret None
           | items => ret (Some (String.concat newline items))
           end
       | _, _ => ret None
       end
     else ret None) ;;
  match from_sgml with
  | Some joined => ret (Some joined)
  | None =>
      if use_xbrl st && negb (use_sgml st) then ret (Some content)
      else ret None
  end.

Definition _extract_xbrl_content (libs : Libs) (self : t)
  (content : string) (st : strategy) : option string :=
  try_except (_extract_xbrl_content_try libs self content st)
    (fun _ => None).

(** The local variables of [parse] that the two parsing steps fill. *)
Record locals : Type := {
  results : list (string * bool * option string * nat);
  combined_metadata : option FilingMetadata;
  combined_xbrl_facts : list XBRLFact;
  combined_sgml : option sgml_raw;
  combined_xbrl : option xbrl_raw
}.

(** An entry of [results]: the parser's name with the [success],
    [error_message] and number of facts of its result. *)
Definition entry {R : Type} (parser : string) (r : ParsingResult R)
  : string * bool * option string * nat :=
  (parser, success r, error_message r, List.length (xbrl_facts r)).

Definition entry_success (e : string * bool * option string * nat) : bool :=
  snd (fst (fst e)).

Definition entry_error (e : string * bool * option string * nat)
  : option string :=
  snd (fst e).


(** Lines 154-164. *)
Definition sgml_step (libs : Libs) (self : t) (content : string)
  (st : strategy) (l : locals) : result locals :=
  if use_sgml st && enable_sgml self
  then
    sgml_result <- SGMLParser.parse libs content ;;
    let results := (results l ++ [entry "sgml" sgml_result])%list in
    if success sgml_result
    then ret {| results := results;
                combined_metadata :=
                  match metadata sgml_result with
                  | Some m => Some m
                  | None => combined_metadata l
                  end;
                combined_xbrl_facts :=
                  (combined_xbrl_facts l ++ xbrl_facts sgml_result)%list;
                combined_sgml :=
                  match raw_data sgml_result with
                  | Some rd => Some rd
                  | None => combined_sgml l
                  end;
                combined_xbrl := combined_xbrl l |}
    else ret {| results := results;
                combined_metadata := combined_metadata l;
                combined_xbrl_facts := combined_xbrl_facts l;
                combined_sgml := combined_sgml l;
                combined_xbrl := combined_xbrl l |}
  else ret l.

(** Lines 167-182. *)
Definition xbrl_step (libs : Libs) (self : t) (content : string)
  (st : strategy) (l : locals) : result locals :=
  if use_xbrl st && enable_xbrl self
  then
    if truthy_str (_extract_xbrl_content libs self content st)
    then
      match _extract_xbrl_content libs self content st with
      | None => ret l
      | Some xbrl_text =>
          xbrl_result <- XBRLParser.parse libs xbrl_text ;;
          let results := (results l ++ [entry "xbrl" xbrl_result])%list in
          if success xbrl_result
          then ret {| results := results;
                      combined_metadata :=
                        match combined_metadata l with
                        | Some m => Some m
                        | None => metadata xbrl_result
                        end;
                      combined_xbrl_facts :=
                        (combined_xbrl_facts l
                         ++ xbrl_facts xbrl_result)%list;
                      combined_sgml := combined_sgml l;
                      combined_xbrl :=
                        match raw_data xbrl_result with
                        | Some rd => Some rd
                        | None => combined_xbrl l
                        end |}
          else ret {| results := results;
                      combined_metadata := combined_metadata l;
                      combined_xbrl_facts := combined_xbrl_facts l;
                      combined_sgml := combined_sgml l;
                      combined_xbrl := combined_xbrl l |}
      end
    else ret l
  else ret l.

(** [[result.error_message for _, result in results if not
    result.success]], as ["; ".join] needs it: every item a string. *)
Fixpoint collect_errors
  (rs : list (string * bool * option string * nat)) : result (list string) :=
  match rs with
  | [] => ret []
  | e :: rest =>
      if entry_success e then collect_errors rest
      else
        match entry_error e with
        | None => raise TypeError "sequence item: expected str instance"
        | Some m => ms <- collect_errors rest ;; ret (m :: ms)
        end
  end.

(** The [try] block of [parse] (lines 139-214). *)
Definition parse_try (libs : Libs) (self : t) (content : string)
  : result (ParsingResult filing_raw) :=
  if negb (is_compatible self content)
  then raise ParseError
         "Content is not compatible with any available parser"
  else
    let st := determine_parser_strategy self content in
    let l := {| results := []; combined_metadata := None;
                combined_xbrl_facts := []; combined_sgml := None;
                combined_xbrl := None |} in
    l <- sgml_step libs self content st l ;;
    l <- xbrl_step libs self content st l ;;
    let ok := existsb entry_success (results l) in
    errors <- collect_errors (results l) ;;
    let error_message :=
      match errors with
      | [] => None
      | _ => Some (String.concat "; " errors)
      end in
    ret (mkParsingResult ok "FilingParser" (combined_metadata l)
           (combined_xbrl_facts l)
           (Some {| raw_strategy := st;
                    parser_results_sgml := combined_sgml l;
                    parser_results_xbrl := combined_xbrl l;
                    individual_results :=
                      map (fun e => (fst (fst (fst e)), entry_success e,
                                     snd e))
                        (results l) |})
           error_message).

(** [parse]: the [try] block and the [except Exception] clause of
    lines 216-228, under the timing decorator. *)
Definition parse (libs : Libs) (self : t) (content : string)
  : result (ParsingResult filing_raw) :=
  measure_parsing_time
    (ret (try_except (parse_try libs self content)
            (fun e =>
               mkParsingResult false "FilingParser" None [] None
                 (Some ("Integrated parsing failed: " ++ exn_msg e))))).

End FilingParser.

End Parsers.

(* ===================================================================== *)
(** * The result dictionaries of the processor *)
(* ===================================================================== *)

Module ResultDict.

Record table_data : Type := {
  columns : NcsrTable.data;
  rows : option (list NcsrTableRow.data)
}.

(** A result dictionary: each key is present ([Some]) or absent.  The
    timing keys ([processing_duration], [parsing_time]) hold wall-clock
    measurements and are not kept. *)
Record t : Type := {
  success : option bool;
  error : option string;
  error_type : option string;
  extraction_method : option string;
  processing_tier : option string;
  filing_id : option (option Z);
  fund_metadata : option Parsers.dict;
  sections : option (list NcsrSection.data);
  tables : option (list table_data);
  table_count : option Z;
  section_count : option Z;
  xbrl_facts_count : option Z;
  parser_name : option string
}.

Definition empty : t := {|
  success := None; error := None; error_type := None;
  extraction_method := None; processing_tier := None; filing_id := None;
  fund_metadata := None; sections := None; tables := None;
  table_count := None; section_count := None; xbrl_facts_count := None;
  parser_name := None
|}.

(** [{"success": False, "error": ..., "error_type": ...,
      "processing_tier": ..., "filing_id": ...}] *)
Definition failure (err : string) (err_type : option string)
  (tier : string) (fid : option Z) : t :=
  {| success := Some false; error := Some err; error_type := err_type;
     extraction_method := None; processing_tier := Some tier;
     filing_id := Some fid;
     fund_metadata := None; sections := None; tables := None;
     table_count := None; section_count := None; xbrl_facts_count := None;
     parser_name := None |}.

(** [result["filing_id"] = ...; result["processing_tier"] = ...] *)
Definition set_filing_and_tier (fid : Z) (tier : string) (r : t) : t :=
  {| success := success r; error := error r; error_type := error_type r;
     extraction_method := extraction_method r;
     processing_tier := Some tier; filing_id := Some (Some fid);
     fund_metadata := fund_metadata r; sections := sections r;
     tables := tables r; table_count := table_count r;
     section_count := section_count r;
     xbrl_facts_count := xbrl_facts_count r;
     parser_name := parser_name r |}.

(** [result.get("success")] as a truth value. *)
Definition succeeded (r : t) : bool :=
  match success r with
  | Some b => b
  | None => false
  end.


(** [dict.get(key)] *)
Fixpoint get (key : string) (d : Parsers.dict) : option string :=
  match d with
  | [] => None
  | (k, v) :: rest => if k =? key then v else get key rest
  end.

End ResultDict.

(* ===================================================================== *)
(** * core/parser_integration.py: ParserManager *)
(* ===================================================================== *)

Module ParserManager.
Import Parsers.
Local Open Scope py_scope.

Record t : Type := { filing_parser : option FilingParser.t }.

(** [_init_parsers]: [create_parser("filing")] returns the parser, or
    [None] when its constructor raises. *)
Definition __init__ (sgml_available xbrl_available : bool) : t :=
  {| filing_parser :=
       try_except
         (p <- FilingParser.__init__ true true sgml_available
                 xbrl_available ;;
          ret (Some p))
         (fun _ => None) |}.

Definition is_available (self : t) : bool :=
  match filing_parser self with
  | Some _ => true
  | None => false
  end.

Definition _extract_metadata_fields (m : FilingMetadata) : dict :=
  [("accession_number", accession_number m);
   ("cik", cik m);
   ("company_name", company_name m);
   ("form_type", form_type m);
   ("filing_date", filing_date m);
   ("period_of_report", period_of_report m);
   ("acceptance_datetime", acceptance_datetime m);
   ("sic", sic m);
   ("state_of_incorporation", state_of_incorporation m);
   ("fiscal_year_end", fiscal_year_end m);
   ("business_address", business_address m);
   ("business_phone", business_phone m);
   ("document_count", document_count m);
   ("items", None);
   ("additional_metadata", None)].
(* The values of [items] and [additional_metadata] are a list and a
   dictionary; only the keys matter here. *)

(** [_extract_xbrl_facts_summary]: the summary is built from
    [fact.concept] and [fact.unit_ref]; an [XBRLFact] has the fields
    [name], [value], [context_ref], [unit], [decimals], [scale] and
    [additional_attributes], so the first fact raises. *)
Definition _extract_xbrl_facts_summary (facts : list XBRLFact) : result dict :=
  match facts with
  | [] => ret []
  | _ :: _ =>
      raise AttributeError "'XBRLFact' object has no attribute 'concept'"
  end.

Definition _convert_to_legacy_format (parsing_result : ParsingResult filing_raw)
  (tier : string) : result ResultDict.t :=
  let metadata_dict :=
    match metadata parsing_result with
    | Some m => _extract_metadata_fields m
    | None => []
    end in
  _ <- (match xbrl_facts parsing_result with
        | [] => ret []
        | facts => _extract_xbrl_facts_summary facts
        end) ;;
  ret {| ResultDict.success := Some (success parsing_result);
         ResultDict.error :=
           if success parsing_result then None
           else Some (match error_message parsing_result with
                      | Some m => m
                      | None => ""
                      end);
         ResultDict.error_type :=
           if success parsing_result then None else Some "parsing";
         ResultDict.extraction_method := Some ("parser_integration_" ++ tier);
         ResultDict.processing_tier := None;
         ResultDict.filing_id := None;
         ResultDict.fund_metadata := Some metadata_dict;
         ResultDict.sections := Some [];
         ResultDict.tables := Some [];
         ResultDict.table_count := Some 0;
         ResultDict.section_count := Some 0;
         ResultDict.xbrl_facts_count :=
           Some (Z.of_nat (List.length (xbrl_facts parsing_result)));
         ResultDict.parser_name := Some (parser_name parsing_result) |}.

Definition _fallback_extraction (tier : string) : ResultDict.t :=
  {| ResultDict.success := Some true;
     ResultDict.error := None;
     ResultDict.error_type := None;
     ResultDict.extraction_method := Some ("fallback_" ++ tier);
     ResultDict.processing_tier := None;
     ResultDict.filing_id := None;
     ResultDict.fund_metadata := Some [];
     ResultDict.sections := Some [];
     ResultDict.tables := Some [];
     ResultDict.table_count := Some 0;
     ResultDict.section_count := Some 0;
     ResultDict.xbrl_facts_count := Some 0;
     ResultDict.parser_name := Some "fallback" |}.

(** The dictionary of the [except Exception] clause of
    [parse_filing_content] (lines 89-99). *)
Definition integration_error (e : exn) : ResultDict.t :=
  {| ResultDict.success := Some false;
     ResultDict.error := Some ("Parser integration error: " ++ exn_msg e);
     ResultDict.error_type := Some "parser_integration";
     ResultDict.extraction_method := Some "parser_integration_failed";
     ResultDict.processing_tier := None;
     ResultDict.filing_id := None;
     ResultDict.fund_metadata := None;
     ResultDict.sections := None;
     ResultDict.tables := None;
     ResultDict.table_count := None;
     ResultDict.section_count := None;
     ResultDict.xbrl_facts_count := None;
     ResultDict.parser_name := None |}.

Definition parse_filing_content (libs : Libs) (self : t) (content : string)
  (tier : string) : ResultDict.t :=
  match filing_parser self with
  | None => _fallback_extraction tier
  | Some parser =>
      try_except
        (parsing_result <- FilingParser.parse libs parser content ;;
         _convert_to_legacy_format parsing_result tier)
        integration_error
  end.

End ParserManager.

(* ===================================================================== *)
(** * storage/database.py: DatabaseManager *)
(* ===================================================================== *)

Module DatabaseManager.
Local Open Scope py_scope.

(** The keys of a [filing_meta] dictionary that the processor reads. *)
Record filing_meta : Type := {
  meta_accession_number : option string;
  meta_cik : option string;
  meta_company_name : option string;
  meta_file_size_mb : option pyfloat;
  meta_filing_html_url : option string
}.

Definition by_accession (accession : string) (f : Filing.t) : bool :=
  Filing.accession_number f =? accession.

Definition by_id (filing_id : Z) (f : Filing.t) : bool :=
  (Filing.id f =? filing_id)%Z.

Definition or_else {A : Type} (o : option A) (d : A) : A :=
  match o with
  | Some a => a
  | None => d
  end.

(** [for key, value in filing_meta.items(): setattr(existing, key, value)]
    and the refresh of [updated_at]. *)
Definition apply_meta (utcnow : clock) (m : filing_meta) (f : Filing.t)
  : Filing.t :=
  {| Filing.id := Filing.id f;
     Filing.accession_number :=
       or_else (meta_accession_number m) (Filing.accession_number f);
     Filing.cik :=
       match meta_cik m with Some v => Some v | None => Filing.cik f end;
     Filing.company_name :=
       match meta_company_name m with
       | Some v => Some v
       | None => Filing.company_name f
       end;
     Filing.file_size_mb :=
       or_else (meta_file_size_mb m) (Filing.file_size_mb f);
     Filing.filing_html_url :=
       match meta_filing_html_url m with
       | Some v => Some v
       | None => Filing.filing_html_url f
       end;
     Filing.processing_status := Filing.processing_status f;
     Filing.processing_tier := Filing.processing_tier f;
     Filing.created_at := Filing.created_at f;
     Filing.updated_at := utcnow AtUpdated |}.

Definition new_filing (utcnow : clock) (new_id : Z) (accession : string)
  (m : filing_meta) : Filing.t :=
  {| Filing.id := new_id;
     Filing.accession_number := accession;
     Filing.cik := meta_cik m;
     Filing.company_name := meta_company_name m;
     Filing.file_size_mb := or_else (meta_file_size_mb m) (of_Z 0);
     Filing.filing_html_url := meta_filing_html_url m;
     Filing.processing_status := "pending";
     Filing.processing_tier := None;
     Filing.created_at := utcnow AtCreated;
     Filing.updated_at := utcnow AtUpdated |}.

(** [create_or_update_filing]: the database after the call, and the
    filing's id or the exception raised. *)
Definition create_or_update_filing (utcnow : clock) (db_fault : bool)
  (db : DB.t) (m : filing_meta) : DB.t * result Z :=
  let session := Session.get_session db in
  if negb (truthy_str (meta_accession_number m))
  then (Session.close session,
        raise ValueError "accession_number is required in filing_meta")
  else
    let accession := or_else (meta_accession_number m) "" in
    let filings := DB.filings (Session.working session) in
    let '(session', filing_id) :=
      match DB.first (by_accession accession) filings with
      | Some existing_filing =>
          (Session.modify
             (DB.set_filings
                (DB.update_first (by_accession accession)
                   (apply_meta utcnow m) filings))
             session,
           Filing.id existing_filing)
      | None =>
          let new_id := DB.next_id (map Filing.id filings) in
          (Session.modify
             (DB.set_filings
                (filings ++ [new_filing utcnow new_id accession m])%list)
             session,
           new_id)
      end in
    match Session.commit db_fault session' with
    | inr committed => (Session.close committed, ret filing_id)
    | inl e => (Session.close (Session.rollback session'), inl e)
    end.

Definition update_filing_processing_status (utcnow : clock) (db_fault : bool)
  (db : DB.t) (filing_id : Z) (tier status : string) : DB.t * bool :=
  let session := Session.get_session db in
  let filings := DB.filings (Session.working session) in
  match DB.first (by_id filing_id) filings with
  | Some _ =>
      let session' :=
        Session.modify
          (DB.set_filings
             (DB.update_first (by_id filing_id)
                (Filing.set_status (Some tier) status (utcnow AtUpdated))
                filings))
          session in
      match Session.commit db_fault session' with
      | inr committed => (Session.close committed, true)
      | inl _ => (Session.close (Session.rollback session'), false)
      end
  | None => (Session.close session, false)
  end.

(** [NcsrSection(filing_id=filing_id, **sec_data)] *)
Definition section_row (filing_id : Z) (sec_data : NcsrSection.data)
  : NcsrSection.t :=
  {| NcsrSection.filing_id := filing_id; NcsrSection.columns := sec_data |}.

(** Step 3 of [save_processing_result]: one [NcsrSection] per section
    dictionary. *)
Definition save_sections (filing_id : Z) (secs : list NcsrSection.data)
  (d : DB.t) : DB.t :=
  fold_left
    (fun d sec_data => DB.add_section (section_row filing_id sec_data) d)
    secs d.

(** Step 4: each table is added and flushed to obtain its id, then its
    rows are added. *)
Definition save_table (filing_id : Z) (d : DB.t)
  (table_data : ResultDict.table_data) : DB.t :=
  let rows := or_else (ResultDict.rows table_data) [] in
  let table_id := DB.next_id (map NcsrTable.id (DB.ncsr_tables d)) in
  let d :=
    DB.add_table
      {| NcsrTable.id := table_id;
         NcsrTable.filing_id := filing_id;
         NcsrTable.columns := ResultDict.columns table_data |} d in
  fold_left
    (fun d row_data =>
       DB.add_table_row
         {| NcsrTableRow.table_id := table_id;
            NcsrTableRow.columns := row_data |} d)
    rows d.

Definition save_tables (filing_id : Z) (tabs : list ResultDict.table_data)
  (d : DB.t) : DB.t :=
  fold_left (save_table filing_id) tabs d.

(** Step 2: a [FundMetadata] row when [result.get("fund_metadata")] is a
    non-empty dictionary. *)
Definition save_fund_metadata (filing_id : Z) (r : ResultDict.t) (d : DB.t)
  : DB.t :=
  match ResultDict.fund_metadata r with
  | Some ((_ :: _) as meta) =>
      DB.add_fund_metadata
        {| FundMetadata.filing_id := filing_id;
           FundMetadata.fund_name := ResultDict.get "fund_name" meta;
           FundMetadata.total_net_assets :=
             ResultDict.get "total_net_assets" meta;
           FundMetadata.raw_data := meta |} d
  | _ => d
  end.

(** Steps 1 to 5 on the open transaction (lines 130-172). *)
Definition save_changes (utcnow : clock) (filing_id : Z) (r : ResultDict.t)
  (tier : string) (d : DB.t) : DB.t :=
  let d :=
    DB.set_filings
      (DB.update_first (by_id filing_id)
         (Filing.set_status (Some tier)
            (if ResultDict.succeeded r then "completed" else "failed")
            (utcnow AtUpdated))
         (DB.filings d)) d in
  let d := save_fund_metadata filing_id r d in
  let d := save_sections filing_id (or_else (ResultDict.sections r) []) d in
  let d := save_tables filing_id (or_else (ResultDict.tables r) []) d in
  DB.add_processing_result
    {| ProcessingResult.filing_id := filing_id;
       ProcessingResult.processing_tier := tier;
       ProcessingResult.success := ResultDict.succeeded r;
       ProcessingResult.tables_extracted :=
         or_else (ResultDict.table_count r) 0;
       ProcessingResult.sections_found :=
         or_else (ResultDict.section_count r) 0 |} d.

(** [save_processing_result]: the database after the call and the value
    returned. *)
Definition save_processing_result (utcnow : clock) (db_fault : bool)
  (db : DB.t) (filing_id : Z) (r : ResultDict.t) (tier : string)
  : DB.t * bool :=
  let session := Session.get_session db in
  match DB.first (by_id filing_id) (DB.filings (Session.working session)) with
  | None => (Session.close session, false)
  | Some _ =>
      let session' :=
        Session.modify (save_changes utcnow filing_id r tier) session in
      match Session.commit db_fault session' with
      | inr committed => (Session.close committed, true)
      | inl _ => (Session.close (Session.rollback session'), false)
      end
  end.

End DatabaseManager.

(* ===================================================================== *)
(** * core/timeout_manager.py *)
(* ===================================================================== *)

Module TimeoutManager.
Import Settings.

(** A block of code run to its end: the seconds it takes and what it
    returns or raises. *)
Record run : Type := { elapsed : Z; outcome : result ResultDict.t }.

(** The module-level context manager [timeout_context(seconds)] around a
    block.  With [SIGALRM], [signal.alarm(seconds)] is armed ([0] arms
    nothing); when the block runs for [seconds] or more, the handler
    raises [TimeoutError] in it.  Without [SIGALRM] the block just runs. *)
Definition timeout_context (has_SIGALRM : bool) (seconds : Z) (body : run)
  : result ResultDict.t :=
  if has_SIGALRM && (0 <? seconds)%Z && (seconds <=? elapsed body)%Z
  then raise TimeoutError "Operation timed out"
  else outcome body.

(** What wrapping a block in an attribute of the manager does, when the
    attribute can be called with the seconds and entered. *)
Definition context_manager : Type := Z -> run -> result ResultDict.t.

(** [class TimeoutManager]: an instance holds [settings]. *)
Record t : Type := { settings : Settings.Settings }.

(** The attributes of an instance by name: the instance attribute
    [settings] and the methods of the class, [__init__],
    [get_parse_timeout] and [get_processing_tier].  None of them is a
    context manager factory ([None]). *)
Definition attributes (self : t) : list (string * option context_manager) :=
  [("settings", None);
   ("__init__", None);
   ("get_parse_timeout", None);
   ("get_processing_tier", None)].

Fixpoint lookup (name : string) (attrs : list (string * option context_manager))
  : option (option context_manager) :=
  match attrs with
  | [] => None
  | (n, v) :: rest => if n =? name then Some v else lookup name rest
  end.

(** [self.<name>]: the attribute, or [AttributeError]. *)
Definition getattr (self : t) (name : string)
  : result (option context_manager) :=
  match lookup name (attributes self) with
  | Some v => ret v
  | None =>
      raise AttributeError
        ("'TimeoutManager' object has no attribute '" ++ name ++ "'")
  end.

End TimeoutManager.

(* ===================================================================== *)
(** * core/tiered_processor.py: TieredProcessor *)
(* ===================================================================== *)

Module TieredProcessor.
Import Settings DatabaseManager.
Local Open Scope py_scope.

(** What a run of the processor meets outside its own code: the clock,
    database failures, the platform, the parsing libraries, how long the
    extraction of a content takes, and the legacy extraction (built on
    an HTML library). *)
Record env : Type := {
  utcnow : clock;
  db_fault : bool;
  has_SIGALRM : bool;
  libs : Parsers.Libs;
  extraction_seconds : string -> Z;
  legacy_extraction : string -> string -> result ResultDict.t
}.

Record t : Type := {
  settings : Settings.Settings;
  timeout_manager : TimeoutManager.t;
  parser_manager : ParserManager.t
}.

(** [self.extractors] *)
Definition extractors : list string := ["standard"; "limited"; "minimal"].

Definition _determine_processing_tier (s : Settings.Settings)
  (file_size_mb : pyfloat) : string :=
  if fgt file_size_mb (LARGE_FILE_THRESHOLD s) then "dead_letter"
  else if fgt file_size_mb (MEDIUM_FILE_THRESHOLD s) then "minimal"
  else if fgt file_size_mb (SMALL_FILE_THRESHOLD s) then "limited"
  else "standard".

Definition _hybrid_extraction_logic (e : env) (self : t)
  (html_content tier : string) : result ResultDict.t :=
  if ParserManager.is_available (parser_manager self)
  then ret (ParserManager.parse_filing_content (libs e)
              (parser_manager self) html_content tier)
  else legacy_extraction e html_content tier.

(** [_process_with_tier]: the block is entered through
    [self.timeout_manager.timeout_context(timeout)]. *)
Definition _process_with_tier (e : env) (self : t)
  (tier html_content : string) : result ResultDict.t :=
  if negb (str_in tier extractors)
  then raise ValueError ("Unknown processing tier: " ++ tier)
  else
    let timeout := get_timeout_for_tier (settings self) tier in
    cm <- TimeoutManager.getattr (timeout_manager self) "timeout_context" ;;
    match cm with
    | Some enter =>
        enter timeout
          {| TimeoutManager.elapsed := extraction_seconds e html_content;
             TimeoutManager.outcome :=
               _hybrid_extraction_logic e self html_content tier |}
    | None => raise TypeError "object is not callable"
    end.

(** [self.dlq.add_filing(filing_id, ...)] from a handler, where
    [filing_id] is still [None] when the filing could not be created: a
    queue row without [filing_id] is refused by the database, and
    [add_filing] rolls back. *)
Definition dlq_add (e : env) (db : DB.t) (filing_id : option Z)
  (error : string) (file_size_mb : pyfloat) (failure_type : string)
  (original_tier : option string) : DB.t :=
  match filing_id with
  | Some fid =>
      fst (DeadLetterQueueManager.add_filing (utcnow e) (db_fault e) db fid
             error file_size_mb failure_type original_tier None)
  | None => db
  end.

Definition size_of (m : filing_meta) : pyfloat :=
  or_else (meta_file_size_mb m) (of_Z 0).

(** The message of [_handle_dead_letter_filing] ends with the size and the
    threshold, which are not spelled out here. *)
Definition _handle_dead_letter_filing (e : env) (db : DB.t) (filing_id : Z)
  (file_size_mb : pyfloat) : DB.t * ResultDict.t :=
  let error_msg := "File too large for processing" in
  (dlq_add e db (Some filing_id) error_msg file_size_mb "file_too_large" None,
   ResultDict.failure error_msg None "dead_letter" (Some filing_id)).

Definition _handle_timeout_error (e : env) (db : DB.t) (filing_id : option Z)
  (m : filing_meta) (tier error : string) : DB.t * ResultDict.t :=
  (dlq_add e db filing_id ("Timeout in " ++ tier ++ " tier: " ++ error)
     (size_of m) "timeout" (Some tier),
   ResultDict.failure error (Some "timeout") tier filing_id).

Definition _handle_memory_error (e : env) (db : DB.t) (filing_id : option Z)
  (m : filing_meta) (tier error : string) : DB.t * ResultDict.t :=
  (dlq_add e db filing_id ("Memory error in " ++ tier ++ " tier: " ++ error)
     (size_of m) "memory" (Some tier),
   ResultDict.failure error (Some "memory") tier filing_id).

Definition _handle_general_error (e : env) (db : DB.t) (filing_id : option Z)
  (m : filing_meta) (tier error : string) : DB.t * ResultDict.t :=
  (dlq_add e db filing_id
     ("Processing error in " ++ tier ++ " tier: " ++ error)
     (size_of m) "processing" (Some tier),
   ResultDict.failure error (Some "processing") tier filing_id).

(** The local variables the [except] clauses of [process_filing] read,
    with the database as the [try] block left it. *)
Record frame : Type := {
  db_now : DB.t;
  filing_id : option Z;
  tier : option string
}.

(** The [try] block of [process_filing] (lines 84-132). *)
Definition process_filing_try (e : env) (self : t) (db : DB.t)
  (m : filing_meta) (html_content : string)
  : frame * result ResultDict.t :=
  let '(db, created) :=
    create_or_update_filing (utcnow e) (db_fault e) db m in
  match created with
  | inl err => ({| db_now := db; filing_id := None; tier := None |}, inl err)
  | inr fid =>
      let file_size_mb := size_of m in
      let tr := _determine_processing_tier (settings self) file_size_mb in
      let '(db, _) :=
        update_filing_processing_status (utcnow e) (db_fault e) db fid tr
          "processing" in
      if tr =? "dead_letter"
      then
        let '(db, r) := _handle_dead_letter_filing e db fid file_size_mb in
        ({| db_now := db; filing_id := Some fid; tier := Some tr |}, ret r)
      else
        match _process_with_tier e self tr html_content with
        | inl err =>
            ({| db_now := db; filing_id := Some fid; tier := Some tr |},
             inl err)
        | inr processing_result =>
            let processing_result :=
              ResultDict.set_filing_and_tier fid tr processing_result in
            let '(db, _) :=
              save_processing_result (utcnow e) (db_fault e) db fid
                processing_result tr in
            ({| db_now := db; filing_id := Some fid; tier := Some tr |},
             ret processing_result)
        end
  end.

(** [process_filing]: the database after the call and the dictionary
    returned. *)
Definition process_filing (e : env) (self : t) (db : DB.t) (m : filing_meta)
  (html_content : string) : DB.t * ResultDict.t :=
  let '(fr, r) := process_filing_try e self db m html_content in
  match r with
  | inr processing_result => (db_now fr, processing_result)
  | inl err =>
      let tr := or_else (tier fr) "unknown" in
      if is_class TimeoutError err
      then _handle_timeout_error e (db_now fr) (filing_id fr) m tr
             (exn_msg err)
      else if is_class MemoryError err
      then _handle_memory_error e (db_now fr) (filing_id fr) m tr
             (exn_msg err)
      else _handle_general_error e (db_now fr) (filing_id fr) m tr
             (exn_msg err)
  end.

End TieredProcessor.

(* ===================================================================== *)
(** * Sample data *)
(* ===================================================================== *)

Module Sample.

(** A clock that reads 1000 at every place. *)
Definition utcnow : clock := fun _ => 1000.

(** The filing of scenario S1, while it is being processed. *)
Definition filing : Filing.t := {|
  Filing.id := 1;
  Filing.accession_number := "0001193125-24-000001";
  Filing.cik := Some "1084380";
  Filing.company_name := Some "TIAA-CREF FUNDS";
  Filing.file_size_mb := FFin (32 # 10);
  Filing.filing_html_url := None;
  Filing.processing_status := "processing";
  Filing.processing_tier := Some "standard";
  Filing.created_at := 0;
  Filing.updated_at := 0
|}.

(** A database that holds this filing and nothing else. *)
Definition db : DB.t := DB.set_filings [filing] DB.empty.

(** The database after the filing failed once by timeout. *)
Definition db_after_timeout : DB.t :=
  fst (DeadLetterQueueManager.add_filing utcnow false db 1
         "Timeout in standard tier" (FFin (32 # 10)) "timeout"
         (Some "standard") None).

Definition meta : DatabaseManager.filing_meta := {|
  DatabaseManager.meta_accession_number := Some "0001193125-24-000001";
  DatabaseManager.meta_cik := Some "1084380";
  DatabaseManager.meta_company_name := Some "TIAA-CREF FUNDS";
  DatabaseManager.meta_file_size_mb := Some (FFin (32 # 10));
  DatabaseManager.meta_filing_html_url := None
|}.




(** Parsing libraries that find nothing and raise nothing. *)
Definition libs_quiet : Parsers.Libs := {|
  Parsers.secsgml_parse_sgml_content_into_memory :=
    fun _ => ret (Parsers.SgmlPair [] []);
  Parsers.secxbrl_parse_inline_xbrl := fun _ => ret (Parsers.XbrlList []);
  Parsers.sgml_extract_metadata := fun _ => None;
  Parsers.sgml_extract_xbrl_facts := fun _ => [];
  Parsers.xbrl_extract_xbrl_facts := fun _ => [];
  Parsers.xbrl_extract_basic_metadata := fun _ => None
|}.

Definition parser : Parsers.FilingParser.t :=
  {| Parsers.FilingParser.enable_sgml := true;
     Parsers.FilingParser.enable_xbrl := true |}.

(** A processor with the default settings on a platform with [SIGALRM],
    where the extraction of any content takes 1000 seconds. *)
Definition env : TieredProcessor.env := {|
  TieredProcessor.utcnow := utcnow;
  TieredProcessor.db_fault := false;
  TieredProcessor.has_SIGALRM := true;
  TieredProcessor.libs := libs_quiet;
  TieredProcessor.extraction_seconds := fun _ => 1000;
  TieredProcessor.legacy_extraction := fun _ _ => ret ResultDict.empty
|}.

Definition processor : TieredProcessor.t := {|
  TieredProcessor.settings := Settings.settings;
  TieredProcessor.timeout_manager :=
    {| TimeoutManager.settings := Settings.settings |};
  TieredProcessor.parser_manager := ParserManager.__init__ true true
|}.

End Sample.

(* ===================================================================== *)
(** * storage/dead_letter_queue.py: the queries of the manager *)
(* ===================================================================== *)

Module NightEntry.
(** A dictionary of the list that [get_night_batch] returns. *)
Record t : Type := {
  filing_id : Z;
  accession_number : string;
  cik : option string;
  company_name : option string;
  file_size_mb : pyfloat;
  attempt_count : Z;
  suggested_tier : string;
  failure_type : string;
  original_tier : option string;
  filing_html_url : option string;
  priority : Z;
  last_failure_reason : string
}.
End NightEntry.

Module DeadLetterQueueQueries.
Import DeadLetterQueueManager.













(** The rows that [cleanup_old_entries] selects: not eligible and created
    before the cutoff. *)
Definition old_entry (cutoff_date : Z) (e : DLQModel.t) : bool :=
  negb (DLQModel.retry_eligible e)
  && (DLQModel.created_at e <? cutoff_date)%Z.

(** The body of the [with] block of [cleanup_old_entries]: the session as
    the body leaves it, and the count. *)
Definition cleanup_old_entries_body (cutoff_date : Z) (session : Session.t)
  : Session.t * nat :=
  let queue := DB.dead_letter_queue (Session.working session) in
  let old_entries := filter (old_entry cutoff_date) queue in
  (Session.modify
     (DB.set_dead_letter_queue
        (filter (fun e => negb (old_entry cutoff_date e)) queue))
     session,
   List.length old_entries).

(** [cleanup_old_entries]; [now] is the reading of [utcnow()], and a
    failure of the database gives 0.  Like [mark_as_processed] it holds
    no [session.commit()]. *)
Definition cleanup_old_entries (now : Z) (db_fault : bool) (db : DB.t)
  (days_to_keep : Z) : DB.t * nat :=
  let cutoff_date := now - 86400 * days_to_keep in
  let session := Session.get_session db in
  if db_fault then (Session.__exit__ session, 0%nat)
  else
    let '(session, count) := cleanup_old_entries_body cutoff_date session in
    (Session.__exit__ session, count).

End DeadLetterQueueQueries.

(* ===================================================================== *)
(** * Repeated failures of one filing *)
(* ===================================================================== *)

Module Replay.

(** The arguments of one call of [add_filing] for a filing. *)
Record failure : Type := {
  error : string;
  file_size_mb : pyfloat;
  failure_type : string;
  original_tier : option string;
  error_details : option string
}.


End Replay.

(* ===================================================================== *)
(** * config/settings.py and core/timeout_manager.py: the rest *)
(* ===================================================================== *)

Module SettingsInit.
Import Settings.

(** [__post_init__]: the settings, or the [ValueError] raised. *)
Definition __post_init__ (database_url sec_api_user_agent : option string)
  (s : Settings.Settings) : result Settings.Settings :=
  if negb (truthy_str database_url)
  then raise ValueError "DATABASE_URL environment variable is required"
  else if negb (truthy_str sec_api_user_agent)
  then raise ValueError "SEC_USER_AGENT environment variable is required"
  else if negb (thresholds_ascending s)
  then raise ValueError "File size thresholds must be in ascending order"
  else ret s.

(** The amount of work a tier stands for, from the most (standard) to none
    (dead_letter). *)
Definition tier_rank (tier : string) : nat :=
  if tier =? "standard" then 0
  else if tier =? "limited" then 1
  else if tier =? "minimal" then 2
  else 3.

End SettingsInit.

Module TimeoutManagerMethods.
Import Settings.

(** [TimeoutManager.get_processing_tier] *)
Definition get_processing_tier (self : TimeoutManager.t)
  (file_size_mb : pyfloat) : string :=
  if flt file_size_mb (SMALL_FILE_THRESHOLD (TimeoutManager.settings self))
  then "standard"
  else if flt file_size_mb
            (MEDIUM_FILE_THRESHOLD (TimeoutManager.settings self))
  then "limited"
  else "minimal".

(** The value of an attribute of a [Settings] instance: an [int], a
    [float], or anything else (a string, a flag, a bound method). *)
Inductive attr_value : Type :=
| IntAttr (z : Z)
| FloatAttr (x : pyfloat)
| OtherAttr.

(** The attributes of a [Settings] instance by name: the fields of the
    dataclass and its methods. *)
Definition settings_attributes (s : Settings.Settings)
  : list (string * attr_value) :=
  [("database_url", OtherAttr);
   ("database_echo", OtherAttr);
   ("sec_api_user_agent", OtherAttr);
   ("rate_limit_delay", OtherAttr);
   ("SMALL_FILE_THRESHOLD", FloatAttr (SMALL_FILE_THRESHOLD s));
   ("MEDIUM_FILE_THRESHOLD", FloatAttr (MEDIUM_FILE_THRESHOLD s));
   ("LARGE_FILE_THRESHOLD", FloatAttr (LARGE_FILE_THRESHOLD s));
   ("TIMEOUT_STANDARD", IntAttr (TIMEOUT_STANDARD s));
   ("TIMEOUT_LIMITED", IntAttr (TIMEOUT_LIMITED s));
   ("TIMEOUT_MINIMAL", IntAttr (TIMEOUT_MINIMAL s));
   ("batch_size", OtherAttr);
   ("night_batch_size", OtherAttr);
   ("DLQ_MAX_ATTEMPTS", IntAttr (DLQ_MAX_ATTEMPTS s));
   ("DLQ_RETRY_AFTER_HOURS", IntAttr (DLQ_RETRY_AFTER_HOURS s));
   ("DLQ_MAX_FILE_SIZE_MB", OtherAttr);
   ("DATA_RETENTION_DAYS", OtherAttr);
   ("__post_init__", OtherAttr);
   ("get_timeout_for_tier", OtherAttr);
   ("determine_processing_tier", OtherAttr);
   ("get_database_config", OtherAttr)].

Fixpoint settings_lookup (name : string)
  (attrs : list (string * attr_value)) : option attr_value :=
  match attrs with
  | [] => None
  | (n, v) :: rest => if n =? name then Some v else settings_lookup name rest
  end.

(** [self.settings.<name>] *)
Definition settings_getattr (s : Settings.Settings) (name : string)
  : result attr_value :=
  match settings_lookup name (settings_attributes s) with
  | Some v => ret v
  | None =>
      raise AttributeError
        ("'Settings' object has no attribute '" ++ name ++ "'")
  end.

(** [TimeoutManager.get_parse_timeout] *)
Definition get_parse_timeout (self : TimeoutManager.t)
  (file_size_mb : pyfloat) : result attr_value :=
  if flt file_size_mb (SMALL_FILE_THRESHOLD (TimeoutManager.settings self))
  then settings_getattr (TimeoutManager.settings self)
         "STANDARD_PARSE_TIMEOUT"
  else if flt file_size_mb
            (MEDIUM_FILE_THRESHOLD (TimeoutManager.settings self))
  then settings_getattr (TimeoutManager.settings self)
         "LIMITED_PARSE_TIMEOUT"
  else settings_getattr (TimeoutManager.settings self)
         "MINIMAL_PARSE_TIMEOUT".

End TimeoutManagerMethods.

(* ===================================================================== *)
(** * core/tiered_processor.py: the batches *)
(* ===================================================================== *)

Module Batch.
Import DatabaseManager TieredProcessor.
Local Open Scope py_scope.

(** A run of a batch: what a run of the processor meets, and the HTTP
    client, which returns the text of a URL ([''] after its retries) or
    raises. *)
Record env : Type := {
  base : TieredProcessor.env;
  http_get_text : string -> result string
}.

Definition _download_filing_content (e : env) (filing_html_url : option string)
  : result (option string) :=
  match filing_html_url with
  | Some url =>
      if truthy_str (Some url)
      then text <- http_get_text e url ;; ret (Some text)
      else ret None
  | None => ret None
  end.

(** The three shapes of dictionary that [process_batch] appends: the result
    of [process_filing], the failed download, and the error of the
    [except] clause with the accession number (['unknown'] without one). *)
Inductive batch_result : Type :=
| Processed (r : ResultDict.t)
| DownloadFailed (filing_id : Z)
| Errored (error : string) (accession_number : string).


(** One turn of the loop of [process_batch] (lines 162-191). *)
Definition process_one (e : env) (self : TieredProcessor.t) (db : DB.t)
  (m : filing_meta) : DB.t * batch_result :=
  let errored err :=
    Errored (exn_msg err) (or_else (meta_accession_number m) "unknown") in
  match _download_filing_content e (meta_filing_html_url m) with
  | inl err => (db, errored err)
  | inr html_content =>
      if truthy_str html_content
      then
        let '(db, r) :=
          process_filing (base e) self db m (or_else html_content "") in
        (db, Processed r)
      else
        let '(db, created) :=
          create_or_update_filing (utcnow (base e)) (db_fault (base e)) db m in
        match created with
        | inl err => (db, errored err)
        | inr fid =>
            (fst (DeadLetterQueueManager.add_filing (utcnow (base e))
                    (db_fault (base e)) db fid "Failed to download content"
                    (size_of m) "network" None None),
             DownloadFailed fid)
        end
  end.






End Batch.

(* ===================================================================== *)
(** * What the tables of a database are expected to satisfy *)
(* ===================================================================== *)

Module Integrity.




End Integrity.

(* ===================================================================== *)
(** * More sample data *)
(* ===================================================================== *)

Module Sample2.






Definition meta_without_accession : DatabaseManager.filing_meta := {|
  DatabaseManager.meta_accession_number := None;
  DatabaseManager.meta_cik := Some "1084380";
  DatabaseManager.meta_company_name := None;
  DatabaseManager.meta_file_size_mb := Some (of_Z 3);
  DatabaseManager.meta_filing_html_url := None
|}.

Definition batch_env : Batch.env := {|
  Batch.base := Sample.env;
  Batch.http_get_text := fun _ => ret "<SEC-DOCUMENT>"
|}.



Definition fact_assets : Parsers.XBRLFact := {|
  Parsers.name := "us-gaap:Assets";
  Parsers.value := "1000";
  Parsers.context_ref := Some "c1";
  Parsers.unit := Some "USD";
  Parsers.decimals := None;
  Parsers.scale := None
|}.

Definition metadata_of_header : Parsers.FilingMetadata := {|
  Parsers.accession_number := Some "0001193125-24-000001";
  Parsers.cik := Some "1084380";
  Parsers.company_name := Some "TIAA-CREF FUNDS";
  Parsers.form_type := Some "N-CSR";
  Parsers.filing_date := None;
  Parsers.period_of_report := None;
  Parsers.acceptance_datetime := None;
  Parsers.sic := None;
  Parsers.state_of_incorporation := None;
  Parsers.fiscal_year_end := None;
  Parsers.business_address := None;
  Parsers.business_phone := None;
  Parsers.document_count := None;
  Parsers.additional_metadata := []
|}.

(** Parsing libraries that find the header of the submission, one
    embedded inline XBRL document and one fact in it. *)
Definition libs_one_fact : Parsers.Libs := {|
  Parsers.secsgml_parse_sgml_content_into_memory :=
    fun _ => ret (Parsers.SgmlPair [] ["<ix:nonFraction>1000"]);
  Parsers.secxbrl_parse_inline_xbrl :=
    fun _ => ret (Parsers.XbrlList [[("name", Some "us-gaap:Assets")]]);
  Parsers.sgml_extract_metadata := fun _ => Some metadata_of_header;
  Parsers.sgml_extract_xbrl_facts := fun _ => [];
  Parsers.xbrl_extract_xbrl_facts := map (fun _ => fact_assets);
  Parsers.xbrl_extract_basic_metadata := fun _ => None
|}.

(** A submission with an inline XBRL document. *)
Definition mixed_content : string := "<SEC-DOCUMENT><ix:nonFraction>1000".

End Sample2.

(* ===================================================================== *)
(** * Properties *)
(* ===================================================================== *)

Import DLQScore.

(** ** Comparisons of floats *)

Lemma Qle_bool_mono (q x y : Q) :
  Qle_bool q x = true -> (x <= y)%Q -> Qle_bool q y = true.
Proof.
  intros Hq Hxy. apply Qle_bool_iff. apply Qle_bool_iff in Hq.
  eapply Qle_trans; eassumption.
Qed.

Lemma fgt_of_Z (size : pyfloat) (z : Z) :
  fge size (of_Z 0) = true -> fgt size (of_Z z) = negb (fle size (of_Z z)).
Proof.
  destruct size; simpl; intros H; try reflexivity; discriminate.
Qed.

Lemma fle_of_Z_mono (size : pyfloat) (x y : Z) :
  (x <= y)%Z -> fle size (of_Z x) = true -> fle size (of_Z y) = true.
Proof.
  intros Hxy. destruct size; simpl; intros H; try assumption.
  eapply Qle_bool_mono; [eassumption|].
  unfold Qle, inject_Z; simpl. lia.
Qed.

(** ** The tier router *)

(** C1.  With the default thresholds 10/50/100 and a size of at least 0,
    the tier router of the settings and the one of the processor agree
    and return standard for [size <= 10], limited for [10 < size <= 50],
    minimal for [50 < size <= 100] and dead_letter for [size > 100]; one
    of the four cases always applies, and the sizes 10.0, 50.0 and 100.0
    go to standard, limited and minimal. *)
Theorem tier_router_default_thresholds (size_mb : pyfloat) :
  fge size_mb (of_Z 0) = true ->
  TieredProcessor._determine_processing_tier Settings.settings size_mb
    = Settings.determine_processing_tier Settings.settings size_mb
  /\ (fle size_mb (of_Z 10) = true ->
      Settings.determine_processing_tier Settings.settings size_mb
        = "standard")
  /\ (fgt size_mb (of_Z 10) = true -> fle size_mb (of_Z 50) = true ->
      Settings.determine_processing_tier Settings.settings size_mb
        = "limited")
  /\ (fgt size_mb (of_Z 50) = true -> fle size_mb (of_Z 100) = true ->
      Settings.determine_processing_tier Settings.settings size_mb
        = "minimal")
  /\ (fgt size_mb (of_Z 100) = true ->
      Settings.determine_processing_tier Settings.settings size_mb
        = "dead_letter")
  /\ (fle size_mb (of_Z 10) = true
      \/ (fgt size_mb (of_Z 10) = true /\ fle size_mb (of_Z 50) = true)
      \/ (fgt size_mb (of_Z 50) = true /\ fle size_mb (of_Z 100) = true)
      \/ fgt size_mb (of_Z 100) = true)
  /\ Settings.determine_processing_tier Settings.settings (of_Z 10)
     = "standard"
  /\ Settings.determine_processing_tier Settings.settings (of_Z 50)
     = "limited"
  /\ Settings.determine_processing_tier Settings.settings (of_Z 100)
     = "minimal".
Proof.
  intros Hpos.
  unfold TieredProcessor._determine_processing_tier,
    Settings.determine_processing_tier.
  cbn [Settings.LARGE_FILE_THRESHOLD Settings.MEDIUM_FILE_THRESHOLD
       Settings.SMALL_FILE_THRESHOLD Settings.settings].
  rewrite !(fgt_of_Z size_mb _ Hpos).
  pose proof (fle_of_Z_mono size_mb 10 50 ltac:(lia)) as H1.
  pose proof (fle_of_Z_mono size_mb 50 100 ltac:(lia)) as H2.
  destruct (fle size_mb (of_Z 10)) eqn:E10;
    destruct (fle size_mb (of_Z 50)) eqn:E50;
    destruct (fle size_mb (of_Z 100)) eqn:E100;
    simpl;
    try (specialize (H1 eq_refl); discriminate);
    try (specialize (H2 eq_refl); discriminate);
    repeat split; intros; try reflexivity; try discriminate; auto.
Qed.

(** A size of 37.5 MB meets the hypothesis of C1. *)
Lemma tier_router_default_thresholds_witness :
  Settings.determine_processing_tier Settings.settings (FFin (75 # 2))
  = "limited".
Proof.
  apply (tier_router_default_thresholds (FFin (75 # 2)));
    reflexivity.
Defined.

(** ** Retry eligibility *)

(** C2.  An attempt is ineligible for retry exactly when [attempts >= 5],
    or [size > 100], or [size > 50] and [attempts >= 2], or the failure
    type is memory and [size > 25], or the failure type is parsing and
    [attempts >= 3]; in every other case it is eligible. *)
Theorem retry_eligibility_iff
  (attempts : Z) (size : pyfloat) (failure_type : string) :
  let ineligible :=
    (5 <= attempts)%Z
    \/ fgt size (of_Z 100) = true
    \/ (fgt size (of_Z 50) = true /\ (2 <= attempts)%Z)
    \/ (failure_type = "memory" /\ fgt size (of_Z 25) = true)
    \/ (failure_type = "parsing" /\ (3 <= attempts)%Z) in
  (_calculate_retry_eligibility attempts size failure_type = false
   <-> ineligible)
  /\ (_calculate_retry_eligibility attempts size failure_type = true
      <-> ~ ineligible).
Proof.
  cbv zeta. unfold _calculate_retry_eligibility.
  rewrite !Z.geb_leb.
  destruct (Z.leb_spec 5 attempts);
    destruct (fgt size (of_Z 100)) eqn:E100;
    destruct (fgt size (of_Z 50)) eqn:E50;
    destruct (Z.leb_spec 2 attempts);
    destruct (String.eqb_spec failure_type "memory");
    destruct (fgt size (of_Z 25)) eqn:E25;
    destruct (String.eqb_spec failure_type "parsing");
    destruct (Z.leb_spec 3 attempts);
    simpl;
    intuition (auto; try lia; try congruence; try discriminate).
Qed.

(** ** Priority *)



(** ** Rows of a table *)

Section Rows.

Context {A : Type}.
Variables (p : A -> bool) (f : A -> A).
Hypothesis f_keeps_p : forall x, p (f x) = p x.





End Rows.


(** ** The dead-letter queue *)

Import DeadLetterQueueManager.

Section AddFiling.

Variables (utcnow : clock) (db : DB.t) (filing_id : Z) (error : string)
  (file_size_mb : pyfloat) (failure_type : string)
  (original_tier error_details : option string).

Let queue := DB.dead_letter_queue db.





End AddFiling.







(** What the body of [mark_as_processed] stages in its session: after a
    successful retry the row of the filing is deleted, after a failed one
    its attempt count is one higher and eligibility and [next_retry] are
    computed again. *)
Lemma mark_as_processed_body_stages
  (utcnow : clock) (db : DB.t) (filing_id : Z) (success : bool)
  (row : DLQModel.t) :
  DB.first (by_filing_id filing_id) (DB.dead_letter_queue db) = Some row ->
  DB.dead_letter_queue
    (Session.working
       (mark_as_processed_body utcnow (Session.get_session db) filing_id
          success))
  = if success
    then DB.delete_first (by_filing_id filing_id) (DB.dead_letter_queue db)
    else DB.update_first (by_filing_id filing_id) (update_failed_retry utcnow)
           (DB.dead_letter_queue db).
Proof.
  intros Hrow. unfold mark_as_processed_body. simpl.
  rewrite Hrow. destruct success; reflexivity.
Qed.

(** C7 on the code.  [mark_as_processed] stages its change in a session
    that the [with] block closes without a commit, so the database is
    the same after the call as before: after [success = true] the row of
    the filing is still in the queue, and after [success = false] its
    attempt count is what it was.  The call returns [True] all the same. *)
Theorem mark_as_processed_commits_nothing
  (utcnow : clock) (db : DB.t) (filing_id : Z) (success : bool) :
  mark_as_processed utcnow db filing_id success = (db, true)
  /\ DB.first (by_filing_id filing_id)
       (DB.dead_letter_queue (fst (mark_as_processed utcnow db filing_id
                                     success)))
     = DB.first (by_filing_id filing_id) (DB.dead_letter_queue db).
Proof.
  assert (H : mark_as_processed utcnow db filing_id success = (db, true)).
  { unfold mark_as_processed, mark_as_processed_body, Session.__exit__,
      Session.close.
    simpl.
    destruct (DB.first (by_filing_id filing_id) (DB.dead_letter_queue db));
      [destruct success|]; reflexivity. }
  split; [exact H|]. rewrite H. reflexivity.
Qed.

(** The sample filing after one timeout: a successful retry leaves its
    queue row in the database. *)
Example mark_as_processed_success_keeps_the_row :
  option_map DLQModel.attempt_count
    (DB.first (by_filing_id 1)
       (DB.dead_letter_queue
          (fst (mark_as_processed Sample.utcnow Sample.db_after_timeout 1
                  true))))
  = Some 1.
Proof. reflexivity. Qed.



(** ** The integrated parser *)

Import Parsers.














(** ** The persistence layer *)

Import DatabaseManager.








(** ** The processor and its timeout *)

Import TieredProcessor.




(** Had the manager the attribute, bound to the module's
    [timeout_context], the sample extraction would be cut off. *)
Example timeout_context_cuts_off_the_sample_extraction :
  TimeoutManager.timeout_context true 300
    {| TimeoutManager.elapsed := 1000;
       TimeoutManager.outcome := ret ResultDict.empty |}
  = raise TimeoutError "Operation timed out".
Proof. reflexivity. Qed.

(* ===================================================================== *)
(** * Further properties *)
(* ===================================================================== *)

(** ** The order of floats *)

Lemma Qle_bool_false (x y : Q) : Qle_bool x y = false -> (y < x)%Q.
Proof.
  intros H. apply Qnot_le_lt. intros Hle.
  apply Qle_bool_iff in Hle. congruence.
Qed.

Lemma Qle_bool_false_of_lt (x y : Q) : (y < x)%Q -> Qle_bool x y = false.
Proof.
  intros H. destruct (Qle_bool x y) eqn:E; [|reflexivity].
  apply Qle_bool_iff in E. exfalso. apply (Qlt_not_le _ _ H E).
Qed.

(** Turns the comparisons of concrete shapes of floats into facts on
    rationals and closes the goal with linear arithmetic. *)
Ltac float_order :=
  simpl in *; try discriminate; try reflexivity;
  repeat match goal with
         | H : negb _ = true |- _ => apply negb_true_iff in H
         | H : negb _ = false |- _ => apply negb_false_iff in H
         | H : Qle_bool _ _ = true |- _ => apply Qle_bool_iff in H
         | H : Qle_bool _ _ = false |- _ => apply Qle_bool_false in H
         | |- negb _ = true => apply negb_true_iff
         | |- negb _ = false => apply negb_false_iff
         | |- Qle_bool _ _ = true => apply Qle_bool_iff
         | |- Qle_bool _ _ = false => apply Qle_bool_false_of_lt
         end;
  try lra.

Lemma fgt_fle_mono (a b t : pyfloat) :
  fle a b = true -> fgt a t = true -> fgt b t = true.
Proof. destruct a, b, t; intros; float_order. Qed.

Lemma flt_fle_mono (a b t : pyfloat) :
  fle a b = true -> flt b t = true -> flt a t = true.
Proof. destruct a, b, t; intros; float_order. Qed.

Lemma flt_negb_fle (a b : pyfloat) :
  fle a a = true -> fle b b = true -> flt a b = negb (fle b a).
Proof. destruct a, b; intros; float_order. Qed.

Lemma flt_trans (a b c : pyfloat) :
  flt a b = true -> flt b c = true -> flt a c = true.
Proof. destruct a, b, c; intros; float_order. Qed.

Lemma fle_flt_trans (a b c : pyfloat) :
  fle a b = true -> flt b c = true -> flt a c = true.
Proof. destruct a, b, c; intros; float_order. Qed.

Lemma fle_flt_fle (a b c : pyfloat) :
  fle a b = true -> flt b c = true -> fle a c = true.
Proof. destruct a, b, c; intros; float_order. Qed.

Lemma flt_irrefl (a : pyfloat) : flt a a = false.
Proof.
  destruct a; simpl; try reflexivity.
  apply negb_false_iff. apply Qle_bool_iff. apply Qle_refl.
Qed.

Lemma flt_not_NaN (a b : pyfloat) :
  flt a b = true -> fle a a = true /\ fle b b = true.
Proof.
  destruct a, b; simpl; intros H; try discriminate; split;
    try reflexivity; apply Qle_bool_iff; apply Qle_refl.
Qed.

(** ** The scoring functions of the queue *)

(** The cases in which [_calculate_retry_eligibility] says no. *)
Lemma retry_ineligible_cases (n : Z) (a : pyfloat) (failure_type : string) :
  _calculate_retry_eligibility n a failure_type = false
  <-> (5 <= n
       \/ fgt a (of_Z 100) = true
       \/ (fgt a (of_Z 50) = true /\ 2 <= n)
       \/ (failure_type = "memory" /\ fgt a (of_Z 25) = true)
       \/ (failure_type = "parsing" /\ 3 <= n)).
Proof.
  unfold _calculate_retry_eligibility. rewrite !Z.geb_leb.
  destruct (Z.leb_spec 5 n);
    destruct (fgt a (of_Z 100));
    destruct (fgt a (of_Z 50));
    destruct (Z.leb_spec 2 n);
    destruct (String.eqb_spec failure_type "memory");
    destruct (fgt a (of_Z 25));
    destruct (String.eqb_spec failure_type "parsing");
    destruct (Z.leb_spec 3 n);
    simpl;
    intuition (auto; try lia; try congruence; try discriminate).
Qed.

(** X1.  Retry eligibility never comes back: a failure that is not
    eligible stays so with more attempts and with a file at least as
    large, for the same failure type. *)
Theorem retry_eligibility_never_returns
  (n m : Z) (a b : pyfloat) (failure_type : string) :
  n <= m -> fle a b = true ->
  _calculate_retry_eligibility n a failure_type = false ->
  _calculate_retry_eligibility m b failure_type = false.
Proof.
  intros Hnm Hab Hel.
  apply retry_ineligible_cases. apply retry_ineligible_cases in Hel.
  destruct Hel as [H5 | [H100 | [[H50 H2] | [[Hm H25] | [Hp H3]]]]].
  - left. lia.
  - right. left. exact (fgt_fle_mono a b _ Hab H100).
  - right. right. left. split; [exact (fgt_fle_mono a b _ Hab H50) | lia].
  - right. right. right. left.
    split; [exact Hm | exact (fgt_fle_mono a b _ Hab H25)].
  - right. right. right. right. split; [exact Hp | lia].
Qed.

(** A memory failure of a 30 MB file meets the hypotheses of X1. *)
Lemma retry_eligibility_never_returns_witness :
  _calculate_retry_eligibility 2 (of_Z 40) "memory" = false.
Proof.
  apply (retry_eligibility_never_returns 1 2 (of_Z 30) (of_Z 40) "memory");
    [lia | reflexivity | reflexivity].
Defined.

Import SettingsInit.

(** X2.  The tier suggested for a retry is always one the processor has an
    extractor for, never dead_letter, and it gets no less conservative
    with more attempts or a larger file. *)
Theorem suggested_tier_is_runnable_and_monotone
  (n m : Z) (a b : pyfloat) (failure_type : string) :
  n <= m -> fle a b = true ->
  str_in (_suggest_tier n a failure_type) TieredProcessor.extractors = true
  /\ (tier_rank (_suggest_tier n a failure_type)
      <= tier_rank (_suggest_tier m b failure_type))%nat.
Proof.
  intros Hnm Hab.
  pose proof (fgt_fle_mono a b (of_Z 30) Hab) as H30.
  pose proof (fgt_fle_mono a b (of_Z 15) Hab) as H15.
  unfold _suggest_tier. rewrite !Z.geb_leb.
  destruct (failure_type =? "memory");
    [split; [reflexivity | vm_compute; lia]|].
  rewrite !orb_false_l.
  destruct (fgt a (of_Z 30)) eqn:A30;
    destruct (fgt b (of_Z 30)) eqn:B30;
    try (specialize (H30 eq_refl); discriminate H30);
    destruct (fgt a (of_Z 15)) eqn:A15;
    destruct (fgt b (of_Z 15)) eqn:B15;
    try (specialize (H15 eq_refl); discriminate H15);
    destruct (Z.leb_spec 2 n); destruct (Z.leb_spec 2 m); try lia;
    (split; [reflexivity | vm_compute; lia]).
Qed.

Lemma suggested_tier_is_runnable_and_monotone_witness :
  str_in (_suggest_tier 1 (of_Z 3) "timeout") TieredProcessor.extractors = true
  /\ (tier_rank (_suggest_tier 1 (of_Z 3) "timeout")
      <= tier_rank (_suggest_tier 2 (of_Z 20) "timeout"))%nat.
Proof.
  apply (suggested_tier_is_runnable_and_monotone 1 2 (of_Z 3) (of_Z 20)
           "timeout"); [lia | reflexivity].
Defined.

(** ** The settings *)

(** X3.  Settings that [__post_init__] accepts route every size that is a
    number into the band between their own thresholds: standard up to the
    small one, limited up to the medium one, minimal up to the large one
    and dead_letter above it. *)
Theorem tier_bands_of_accepted_settings
  (database_url sec_api_user_agent : option string)
  (s s' : Settings.Settings) (size : pyfloat) :
  __post_init__ database_url sec_api_user_agent s = inr s' ->
  fle size size = true ->
  s' = s
  /\ (Settings.determine_processing_tier s size = "standard"
      <-> fle size (Settings.SMALL_FILE_THRESHOLD s) = true)
  /\ (Settings.determine_processing_tier s size = "limited"
      <-> fgt size (Settings.SMALL_FILE_THRESHOLD s) = true
          /\ fle size (Settings.MEDIUM_FILE_THRESHOLD s) = true)
  /\ (Settings.determine_processing_tier s size = "minimal"
      <-> fgt size (Settings.MEDIUM_FILE_THRESHOLD s) = true
          /\ fle size (Settings.LARGE_FILE_THRESHOLD s) = true)
  /\ (Settings.determine_processing_tier s size = "dead_letter"
      <-> fgt size (Settings.LARGE_FILE_THRESHOLD s) = true).
Proof.
  unfold __post_init__, raise, ret.
  destruct (negb (truthy_str database_url)); [discriminate|].
  destruct (negb (truthy_str sec_api_user_agent)); [discriminate|].
  destruct (Settings.thresholds_ascending s) eqn:Hasc; [|discriminate].
  intros H Hnum. injection H as <-. split; [reflexivity|].
  unfold Settings.thresholds_ascending in Hasc.
  apply andb_true_iff in Hasc as [Hasc HML].
  apply andb_true_iff in Hasc as [_ HSM].
  destruct (flt_not_NaN _ _ HSM) as [HS HM].
  destruct (flt_not_NaN _ _ HML) as [_ HL].
  unfold Settings.determine_processing_tier, fgt.
  rewrite !(flt_negb_fle _ size) by assumption.
  assert (A : fle size (Settings.SMALL_FILE_THRESHOLD s) = true ->
              fle size (Settings.MEDIUM_FILE_THRESHOLD s) = true)
    by (intros H; exact (fle_flt_fle _ _ _ H HSM)).
  assert (B : fle size (Settings.MEDIUM_FILE_THRESHOLD s) = true ->
              fle size (Settings.LARGE_FILE_THRESHOLD s) = true)
    by (intros H; exact (fle_flt_fle _ _ _ H HML)).
  destruct (fle size (Settings.SMALL_FILE_THRESHOLD s)) eqn:E1;
    destruct (fle size (Settings.MEDIUM_FILE_THRESHOLD s)) eqn:E2;
    destruct (fle size (Settings.LARGE_FILE_THRESHOLD s)) eqn:E3;
    simpl in *;
    try (specialize (A eq_refl); discriminate A);
    try (specialize (B eq_refl); discriminate B);
    repeat split; intros; try discriminate; try reflexivity;
    try (match goal with H : _ /\ _ |- _ => destruct H end; discriminate).
Qed.

(** The default settings with a database URL and a user agent, and a size
    of 37.5 MB, meet the hypotheses of X3. *)
Lemma tier_bands_of_accepted_settings_witness :
  Settings.determine_processing_tier Settings.settings (FFin (75 # 2))
    = "limited"
  <-> fgt (FFin (75 # 2)) (Settings.SMALL_FILE_THRESHOLD Settings.settings)
        = true
      /\ fle (FFin (75 # 2)) (Settings.MEDIUM_FILE_THRESHOLD Settings.settings)
         = true.
Proof.
  apply (tier_bands_of_accepted_settings (Some "sqlite:///filings.db")
           (Some "Operator admin@example.com") Settings.settings
           Settings.settings (FFin (75 # 2)));
    reflexivity.
Defined.

(** X4.  Whatever the thresholds, a larger file never gets a tier with
    more work, and with timeouts that do not grow from standard to
    minimal it never gets more time. *)
Theorem larger_files_get_no_more_work
  (s : Settings.Settings) (a b : pyfloat) :
  fle a b = true ->
  (tier_rank (Settings.determine_processing_tier s a)
   <= tier_rank (Settings.determine_processing_tier s b))%nat
  /\ (0 <= Settings.TIMEOUT_MINIMAL s <= Settings.TIMEOUT_LIMITED s ->
      Settings.TIMEOUT_LIMITED s <= Settings.TIMEOUT_STANDARD s ->
      Settings.get_timeout_for_tier s (Settings.determine_processing_tier s b)
      <= Settings.get_timeout_for_tier s
           (Settings.determine_processing_tier s a)).
Proof.
  intros Hab.
  pose proof (fgt_fle_mono a b (Settings.LARGE_FILE_THRESHOLD s) Hab) as HL.
  pose proof (fgt_fle_mono a b (Settings.MEDIUM_FILE_THRESHOLD s) Hab) as HM.
  pose proof (fgt_fle_mono a b (Settings.SMALL_FILE_THRESHOLD s) Hab) as HS.
  unfold Settings.determine_processing_tier.
  destruct (fgt a (Settings.LARGE_FILE_THRESHOLD s));
    [rewrite (HL eq_refl)|];
    destruct (fgt a (Settings.MEDIUM_FILE_THRESHOLD s));
    try rewrite (HM eq_refl);
    destruct (fgt a (Settings.SMALL_FILE_THRESHOLD s));
    try rewrite (HS eq_refl);
    destruct (fgt b (Settings.LARGE_FILE_THRESHOLD s));
    destruct (fgt b (Settings.MEDIUM_FILE_THRESHOLD s));
    destruct (fgt b (Settings.SMALL_FILE_THRESHOLD s));
    (split; [vm_compute; lia
            | unfold Settings.get_timeout_for_tier; simpl; lia]).
Qed.

Lemma larger_files_get_no_more_work_witness :
  (tier_rank (Settings.determine_processing_tier Settings.settings (of_Z 3))
   <= tier_rank (Settings.determine_processing_tier Settings.settings
                   (of_Z 60)))%nat.
Proof.
  apply (larger_files_get_no_more_work Settings.settings (of_Z 3) (of_Z 60)).
  reflexivity.
Defined.

Import TimeoutManagerMethods.

(** X5.  [TimeoutManager.get_processing_tier] is not the router of the
    settings: with accepted thresholds the two agree on a size exactly
    when it is neither the small nor the medium threshold and not above
    the large one.  On the small threshold the manager says limited where
    the router says standard, and above the large one it says minimal
    where the router says dead_letter. *)
Theorem timeout_manager_tier_differs_on_thresholds
  (tm : TimeoutManager.t) (size : pyfloat) :
  Settings.thresholds_ascending (TimeoutManager.settings tm) = true ->
  fle size size = true ->
  let s := TimeoutManager.settings tm in
  (get_processing_tier tm size = Settings.determine_processing_tier s size
   <-> flt size (Settings.SMALL_FILE_THRESHOLD s)
         || fgt size (Settings.SMALL_FILE_THRESHOLD s) = true
       /\ flt size (Settings.MEDIUM_FILE_THRESHOLD s)
            || fgt size (Settings.MEDIUM_FILE_THRESHOLD s) = true
       /\ fle size (Settings.LARGE_FILE_THRESHOLD s) = true)
  /\ get_processing_tier tm (Settings.SMALL_FILE_THRESHOLD s) = "limited"
  /\ Settings.determine_processing_tier s (Settings.SMALL_FILE_THRESHOLD s)
     = "standard"
  /\ (fgt size (Settings.LARGE_FILE_THRESHOLD s) = true ->
      get_processing_tier tm size = "minimal"
      /\ Settings.determine_processing_tier s size = "dead_letter").
Proof.
  intros Hasc Hnum. cbv zeta.
  set (s := TimeoutManager.settings tm) in *.
  unfold Settings.thresholds_ascending in Hasc.
  apply andb_true_iff in Hasc as [Hasc HML].
  apply andb_true_iff in Hasc as [_ HSM].
  destruct (flt_not_NaN _ _ HSM) as [HS HM].
  destruct (flt_not_NaN _ _ HML) as [_ HL].
  pose proof (flt_trans _ _ _ HSM HML) as HSL.
  unfold get_processing_tier, Settings.determine_processing_tier, fgt.
  fold s.
  split; [| split; [| split]].
  - destruct size as [q| | |]; [| | |discriminate Hnum];
      destruct (Settings.SMALL_FILE_THRESHOLD s) as [qs| | |];
      try discriminate HS; try discriminate HSM;
      destruct (Settings.MEDIUM_FILE_THRESHOLD s) as [qm| | |];
      try discriminate HM; try discriminate HSM; try discriminate HML;
      destruct (Settings.LARGE_FILE_THRESHOLD s) as [ql| | |];
      try discriminate HL; try discriminate HML; try discriminate HSL;
      simpl in *;
      repeat match goal with
             | |- context [Qle_bool ?x ?y] =>
                 let E := fresh "E" in destruct (Qle_bool x y) eqn:E
             end;
      simpl; float_order;
      try (split; [intros H; try discriminate H; repeat split; reflexivity
                  | intros (H1 & H2 & H3);
                    try discriminate H1; try discriminate H2;
                    try discriminate H3; reflexivity]).
  - rewrite flt_irrefl, HSM. reflexivity.
  - rewrite flt_irrefl.
    rewrite (flt_negb_fle (Settings.MEDIUM_FILE_THRESHOLD s)) by assumption.
    rewrite (flt_negb_fle (Settings.LARGE_FILE_THRESHOLD s)) by assumption.
    assert (H1 : fle (Settings.SMALL_FILE_THRESHOLD s)
                   (Settings.MEDIUM_FILE_THRESHOLD s) = true).
    { destruct (Settings.SMALL_FILE_THRESHOLD s),
        (Settings.MEDIUM_FILE_THRESHOLD s); float_order. }
    assert (H2 : fle (Settings.SMALL_FILE_THRESHOLD s)
                   (Settings.LARGE_FILE_THRESHOLD s) = true).
    { destruct (Settings.SMALL_FILE_THRESHOLD s),
        (Settings.LARGE_FILE_THRESHOLD s); float_order. }
    rewrite H1, H2. reflexivity.
  - intros Hbig. rewrite Hbig.
    pose proof (flt_trans _ _ _ HSL Hbig) as H1.
    pose proof (flt_trans _ _ _ HML Hbig) as H2.
    assert (F1 : flt size (Settings.SMALL_FILE_THRESHOLD s) = false).
    { destruct size, (Settings.SMALL_FILE_THRESHOLD s); float_order. }
    assert (F2 : flt size (Settings.MEDIUM_FILE_THRESHOLD s) = false).
    { destruct size, (Settings.MEDIUM_FILE_THRESHOLD s); float_order. }
    rewrite F1, F2. split; reflexivity.
Qed.

(** The default settings and the size 10.0 meet the hypotheses of X5. *)
Lemma timeout_manager_tier_differs_on_thresholds_witness :
  get_processing_tier {| TimeoutManager.settings := Settings.settings |}
    (Settings.SMALL_FILE_THRESHOLD Settings.settings) = "limited"
  /\ Settings.determine_processing_tier Settings.settings
       (Settings.SMALL_FILE_THRESHOLD Settings.settings) = "standard".
Proof.
  destruct (timeout_manager_tier_differs_on_thresholds
              {| TimeoutManager.settings := Settings.settings |} (of_Z 10)
              eq_refl eq_refl) as (_ & H1 & H2 & _).
  split; [exact H1 | exact H2].
Defined.

(** ** More on the rows of a table *)










(** ** The queue under repeated failures *)












(** ** The night batch *)

Import DeadLetterQueueQueries.

























(** ** When a failed filing is served again *)







(** ** The counts of the queue *)







(** X14.  [cleanup_old_entries] reports rows as deleted that stay in the
    table: it returns the number of rows that are not eligible and older
    than the cutoff (0 when the database fails), and, holding no
    [session.commit()], it leaves the database as it was; a second call
    returns the same number. *)
Theorem cleanup_old_entries_deletes_nothing (now : Z) (db_fault : bool)
  (db : DB.t) (days_to_keep : Z) :
  let '(db', count) := cleanup_old_entries now db_fault db days_to_keep in
  db' = db
  /\ count =
     (if db_fault then 0%nat
      else List.length
             (filter (fun e => negb (DLQModel.retry_eligible e)
                               && (DLQModel.created_at e
                                   <? now - 86400 * days_to_keep)%Z)
                (DB.dead_letter_queue db)))
  /\ snd (cleanup_old_entries now db_fault db' days_to_keep) = count.
Proof.
  unfold cleanup_old_entries, cleanup_old_entries_body.
  destruct db_fault; simpl; repeat split; reflexivity.
Qed.

(** ** The filings table *)







(** ** Saving a result *)












(** ** The parsers *)

(** The facts of a result of the XBRL parser that is a success are those
    the library found in the text. *)
Lemma XBRLParser_parse_success (libs : Libs) (text : string)
  (r : ParsingResult xbrl_raw) :
  XBRLParser.parse libs text = inr r -> success r = true ->
  XBRLParser.is_compatible text = true
  /\ exists facts,
       secxbrl_parse_inline_xbrl libs text = inr (XbrlList facts)
       /\ xbrl_facts r = xbrl_extract_xbrl_facts libs facts
       /\ metadata r = xbrl_extract_basic_metadata libs text
       /\ error_message r = None.
Proof.
  unfold XBRLParser.parse, measure_parsing_time, ret, try_except,
    XBRLParser.parse_try, bind, raise.
  destruct (XBRLParser.is_compatible text); simpl.
  - destruct (secxbrl_parse_inline_xbrl libs text) as [e | [facts | ty]];
      simpl; intros Hr Hs; injection Hr as <-; simpl in Hs;
      try discriminate Hs.
    split; [reflexivity|]. exists facts. repeat split.
  - intros Hr Hs. injection Hr as <-. discriminate Hs.
Qed.

Lemma SGMLParser_parse_pair (libs : Libs) (content : string)
  (metadata_dict : dict) (items : list string) :
  SGMLParser.is_compatible content = true ->
  secsgml_parse_sgml_content_into_memory libs content
    = inr (SgmlPair metadata_dict items) ->
  SGMLParser.parse libs content
  = inr (mkParsingResult true "SGMLParser"
           (sgml_extract_metadata libs metadata_dict)
           (sgml_extract_xbrl_facts libs items)
           (Some {| sgml_metadata := metadata_dict;
                    xbrl_content := items |})
           None).
Proof.
  intros Hcompat Hlib.
  unfold SGMLParser.parse, SGMLParser.parse_try, measure_parsing_time,
    try_except, bind, ret.
  rewrite Hcompat, Hlib. reflexivity.
Qed.

(** In a submission that the SGML parser takes, the text given to the
    XBRL parser is the embedded documents, joined. *)
Lemma extract_xbrl_content_of_submission (libs : Libs)
  (self : FilingParser.t) (content : string) (st : strategy)
  (metadata_dict : dict) (items : list string) :
  FilingParser.enable_sgml self = true ->
  use_sgml st = true ->
  SGMLParser.is_compatible content = true ->
  secsgml_parse_sgml_content_into_memory libs content
    = inr (SgmlPair metadata_dict items) ->
  FilingParser._extract_xbrl_content libs self content st =
  match items with
  | [] => None
  | _ => Some (String.concat FilingParser.newline items)
  end.
Proof.
  intros Hen Hus Hcompat Hlib.
  unfold FilingParser._extract_xbrl_content,
    FilingParser._extract_xbrl_content_try.
  rewrite Hus, Hen,
    (SGMLParser_parse_pair libs content metadata_dict items Hcompat Hlib).
  unfold bind, ret, try_except. cbn [andb negb success raw_data
    mkParsingResult xbrl_content].
  destruct items as [|item rest]; [|reflexivity].
  rewrite andb_false_r. reflexivity.
Qed.



(** X19.  The hybrid parse of a submission with inline XBRL.  When both
    sub-parsers are enabled and take the content, [secsgml] returns the
    header and a non-empty list of embedded documents, and [secxbrl]
    returns the facts of these documents joined by newlines, then [parse]
    is a success without an error message; its facts are those of the
    SGML parser followed by those of the XBRL parser; its metadata is
    that of the SGML header when there is one and otherwise that of the
    XBRL parser; and the XBRL parser has read the joined documents, not
    the whole content. *)
Theorem hybrid_parse_combines_both_parsers (libs : Libs)
  (self : FilingParser.t) (content : string) (metadata_dict : dict)
  (items : list string) (facts : list dict) :
  FilingParser.enable_sgml self = true ->
  FilingParser.enable_xbrl self = true ->
  SGMLParser.is_compatible content = true ->
  XBRLParser.is_compatible content = true ->
  secsgml_parse_sgml_content_into_memory libs content
    = inr (SgmlPair metadata_dict items) ->
  items <> [] ->
  XBRLParser.is_compatible (String.concat FilingParser.newline items)
    = true ->
  secxbrl_parse_inline_xbrl libs (String.concat FilingParser.newline items)
    = inr (XbrlList facts) ->
  exists r,
    FilingParser.parse libs self content = inr r
    /\ success r = true
    /\ error_message r = None
    /\ xbrl_facts r
       = (sgml_extract_xbrl_facts libs items
          ++ xbrl_extract_xbrl_facts libs facts)%list
    /\ metadata r
       = match sgml_extract_metadata libs metadata_dict with
         | Some m => Some m
         | None =>
             xbrl_extract_basic_metadata libs
               (String.concat FilingParser.newline items)
         end
    /\ exists raw,
         raw_data r = Some raw
         /\ primary_parser (raw_strategy raw) = Some "sgml"
         /\ individual_results raw
            = [("sgml", true,
                List.length (sgml_extract_xbrl_facts libs items));
               ("xbrl", true,
                List.length (xbrl_extract_xbrl_facts libs facts))].
Proof.
  intros Hes Hex Hcs Hcx Hsgml Hitems Hcj Hxbrl.
  pose proof (SGMLParser_parse_pair libs content metadata_dict items
                Hcs Hsgml) as Hsp.
  assert (Hxp :
    XBRLParser.parse libs (String.concat FilingParser.newline items)
    = inr (mkParsingResult true "XBRLParser"
             (xbrl_extract_basic_metadata libs
                (String.concat FilingParser.newline items))
             (xbrl_extract_xbrl_facts libs facts)
             (Some {| facts_data := facts;
                      fact_count :=
                        List.length (xbrl_extract_xbrl_facts libs facts) |})
             None)).
  { unfold XBRLParser.parse, XBRLParser.parse_try, measure_parsing_time,
      try_except, bind, ret.
    rewrite Hcj, Hxbrl. reflexivity. }
  assert (Hst : FilingParser.determine_parser_strategy self content
                = {| use_sgml := true; use_xbrl := true;
                     primary_parser := Some "sgml" |}).
  { unfold FilingParser.determine_parser_strategy.
    rewrite Hes, Hex, Hcs, Hcx. reflexivity. }
  assert (Hext :
    FilingParser._extract_xbrl_content libs self content
      {| use_sgml := true; use_xbrl := true; primary_parser := Some "sgml" |}
    = Some (String.concat FilingParser.newline items)).
  { rewrite (extract_xbrl_content_of_submission libs self content
               {| use_sgml := true; use_xbrl := true;
                  primary_parser := Some "sgml" |}
               metadata_dict items Hes eq_refl Hcs Hsgml).
    destruct items; [contradiction | reflexivity]. }
  assert (Htruthy :
    truthy_str (Some (String.concat FilingParser.newline items)) = true).
  { destruct (String.concat FilingParser.newline items);
      [discriminate Hcj | reflexivity]. }
  unfold FilingParser.parse, measure_parsing_time, ret, try_except,
    FilingParser.parse_try, FilingParser.is_compatible.
  rewrite Hes, Hcs, Hst. cbn [andb negb].
  unfold FilingParser.sgml_step, FilingParser.xbrl_step.
  cbn [use_sgml use_xbrl andb]. rewrite Hes, Hex, Hsp, Hext, Htruthy, Hxp.
  unfold bind, ret. cbn.
  eexists. split; [reflexivity|].
  split; [reflexivity|]. split; [reflexivity|]. split; [reflexivity|].
  split.
  { destruct (sgml_extract_metadata libs metadata_dict); reflexivity. }
  eexists. split; [reflexivity|]. split; reflexivity.
Qed.

Lemma hybrid_parse_combines_both_parsers_witness :
  exists r,
    FilingParser.parse Sample2.libs_one_fact Sample.parser
      Sample2.mixed_content = inr r
    /\ success r = true
    /\ xbrl_facts r = [Sample2.fact_assets]
    /\ metadata r = Some Sample2.metadata_of_header.
Proof.
  destruct (hybrid_parse_combines_both_parsers Sample2.libs_one_fact
              Sample.parser Sample2.mixed_content []
              ["<ix:nonFraction>1000"] [[("name", Some "us-gaap:Assets")]]
              eq_refl eq_refl eq_refl eq_refl eq_refl)
    as (r & Hr & Hs & _ & Hf & Hm & _).
  - discriminate.
  - reflexivity.
  - reflexivity.
  - exists r. split; [exact Hr|]. split; [exact Hs|].
    split; [exact Hf | exact Hm].
Defined.

(** ** The processor *)
















(** X22.  A filing without an accession number leaves no trace.
    [process_filing] returns the failure of type processing with the tier
    unknown and no filing id, and the database is as it was: no [Filing]
    row, and no queue row either, since there is no filing to attach it
    to.  In [process_batch] such a filing, when it has no content either,
    ends as the error entry with this message, under the accession number
    unknown when the key is absent. *)
Theorem filing_without_accession_leaves_no_trace (e : Batch.env)
  (self : TieredProcessor.t) (db : DB.t) (m : filing_meta)
  (html_content : string) :
  truthy_str (meta_accession_number m) = false ->
  process_filing (Batch.base e) self db m html_content
  = (db,
     ResultDict.failure "accession_number is required in filing_meta"
       (Some "processing") "unknown" None)
  /\ (forall downloaded,
        Batch._download_filing_content e (meta_filing_html_url m)
          = inr downloaded ->
        truthy_str downloaded = false ->
        Batch.process_one e self db m
        = (db,
           Batch.Errored "accession_number is required in filing_meta"
             (or_else (meta_accession_number m) "unknown"))).
Proof.
  intros Hacc. split.
  - unfold process_filing, process_filing_try, create_or_update_filing.
    rewrite Hacc. reflexivity.
  - intros downloaded Hdown Hempty. unfold Batch.process_one.
    rewrite Hdown, Hempty.
    unfold create_or_update_filing. rewrite Hacc. reflexivity.
Qed.

Lemma filing_without_accession_leaves_no_trace_witness :
  process_filing Sample.env Sample.processor Sample.db
    Sample2.meta_without_accession "<SEC-DOCUMENT>"
  = (Sample.db,
     ResultDict.failure "accession_number is required in filing_meta"
       (Some "processing") "unknown" None).
Proof.
  apply (filing_without_accession_leaves_no_trace Sample2.batch_env
           Sample.processor Sample.db Sample2.meta_without_accession
           "<SEC-DOCUMENT>").
  reflexivity.
Defined.

(** ** The batches *)







(** ** What is left of the timeout manager and the parser manager *)

(** X25.  [TimeoutManager.get_parse_timeout] never returns a timeout.
    Each of its branches reads an attribute of the settings,
    [STANDARD_PARSE_TIMEOUT], [LIMITED_PARSE_TIMEOUT] or
    [MINIMAL_PARSE_TIMEOUT], that a [Settings] instance does not have (its
    timeouts are [TIMEOUT_STANDARD], [TIMEOUT_LIMITED] and
    [TIMEOUT_MINIMAL]): for every size, NaN included, the call raises
    [AttributeError].  The attributes that hold what
    [get_timeout_for_tier] returns for the three tiers are there. *)
Theorem get_parse_timeout_always_raises (self : TimeoutManager.t)
  (file_size_mb : pyfloat) :
  (exists name,
     In name ["STANDARD_PARSE_TIMEOUT"; "LIMITED_PARSE_TIMEOUT";
              "MINIMAL_PARSE_TIMEOUT"]
     /\ TimeoutManagerMethods.get_parse_timeout self file_size_mb
        = raise AttributeError
            ("'Settings' object has no attribute '" ++ name ++ "'"))
  /\ TimeoutManagerMethods.settings_getattr (TimeoutManager.settings self)
       "TIMEOUT_STANDARD"
     = ret (TimeoutManagerMethods.IntAttr
              (Settings.get_timeout_for_tier (TimeoutManager.settings self)
                 "standard"))
  /\ TimeoutManagerMethods.settings_getattr (TimeoutManager.settings self)
       "TIMEOUT_LIMITED"
     = ret (TimeoutManagerMethods.IntAttr
              (Settings.get_timeout_for_tier (TimeoutManager.settings self)
                 "limited"))
  /\ TimeoutManagerMethods.settings_getattr (TimeoutManager.settings self)
       "TIMEOUT_MINIMAL"
     = ret (TimeoutManagerMethods.IntAttr
              (Settings.get_timeout_for_tier (TimeoutManager.settings self)
                 "minimal")).
Proof.
  split.
  - unfold TimeoutManagerMethods.get_parse_timeout.
    destruct (flt file_size_mb
                (Settings.SMALL_FILE_THRESHOLD
                   (TimeoutManager.settings self)));
      [|destruct (flt file_size_mb
                    (Settings.MEDIUM_FILE_THRESHOLD
                       (TimeoutManager.settings self)))];
      eexists; (split; [|reflexivity]); simpl; auto.
  - repeat split.
Qed.



